(** * The backtest orchestrator of [app/core/backtest_engine.py]

    A shallow embedding of [run_backtest]: input validation, the
    data-length-aware parameter clamping, the fail-safe boundary around
    the Backtrader run and the extraction of the metrics.

    Conventions of the embedding.
    - Python [int]s are [Z]; [//] with a positive divisor is [Z.div].
    - Money amounts and ratios (Python [float]s the code treats as ordinary
      numbers) are exact rationals [Q]; [==] on them is [Qeq].  The Sharpe
      value, which the code tests for NaN and the infinities, has the type
      [pyfloat] that carries them.  The position sizing, whose result
      depends on rounding, is on binary64 floats.
    - Python dicts that are shared by reference live in a heap of dict
      objects; [strategy_params] is a reference into it.
    - Exceptions are instances of [Exception]; a computation of the monad
      [M] returns a value or raises, and threads the heap and the state of
      the outside world. *)

From Stdlib Require Import ZArith QArith String List Lia Lqa Qabs.
From Stdlib Require Floats.
From stdpp Require Import base option gmap strings.

Local Open Scope string_scope.
Local Open Scope Z_scope.

(** ** Python values *)

Module Py.

(** An instance of [Exception]: its class and its message. *)
Record exn := Exception { exc_class : string; exc_msg : string }.

Definition ValueError (msg : string) : exn := Exception "ValueError" msg.
Definition AttributeError (msg : string) : exn := Exception "AttributeError" msg.
Definition ZeroDivisionError : exn :=
  Exception "ZeroDivisionError" "float division by zero".

Inductive result (A : Type) : Type :=
| Ok (a : A)
| Raise (e : exn).
Arguments Ok {A} a.
Arguments Raise {A} e.

(** A float whose special values the code looks at. *)
Inductive pyfloat : Type :=
| Finite (q : Q)
| NaN
| PosInf
| NegInf.

(** [a == b] on floats: NaN is equal to nothing, itself included. *)
Definition float_eq (a b : pyfloat) : bool :=
  match a, b with
  | Finite x, Finite y => Qeq_bool x y
  | PosInf, PosInf => true
  | NegInf, NegInf => true
  | _, _ => false
  end.

(** [a != b]. *)
Definition float_ne (a b : pyfloat) : bool := negb (float_eq a b).

(** [a / b] on numbers: a zero divisor raises. *)
Definition truediv (a b : Q) : result Q :=
  if Qeq_bool b 0 then Raise ZeroDivisionError else Ok (a / b)%Q.

(** [repr] of a list of strings, as an f-string prints it. *)
Definition repr_str (s : string) : string := "'" ++ s ++ "'".

Fixpoint join (sep : string) (l : list string) : string :=
  match l with
  | [] => ""
  | [x] => x
  | x :: rest => x ++ sep ++ join sep rest
  end.

Definition repr_list (l : list string) : string :=
  "[" ++ join ", " (map repr_str l) ++ "]".

End Py.
Import Py.

(** ** The heap of dict objects *)

Definition loc := positive.

(** The state a call runs in: the dict objects, and the state of whatever
    lies outside the arguments (what the engine may read and change). *)
Record state (World : Type) : Type := State {
  heap : gmap loc (gmap string Z);
  world : World
}.
Arguments State {World} heap world.
Arguments heap {World} s.
Arguments world {World} s.

Definition set_heap {World} (h : gmap loc (gmap string Z)) (s : state World)
  : state World := State h (world s).

Definition M (World A : Type) : Type := state World -> result A * state World.

Definition ret {World A} (a : A) : M World A := fun s => (Ok a, s).

Definition raise {World A} (e : exn) : M World A := fun s => (Raise e, s).

Definition bind {World A B} (m : M World A) (k : A -> M World B) : M World B :=
  fun s =>
    match m s with
    | (Ok a, s') => k a s'
    | (Raise e, s') => (Raise e, s')
    end.

(** [try: body / except Exception as e: handler e]. *)
Definition try_except {World A} (body : M World A) (handler : exn -> M World A)
  : M World A :=
  fun s =>
    match body s with
    | (Ok a, s') => (Ok a, s')
    | (Raise e, s') => handler e s'
    end.

Notation "x <- m ;; k" := (bind m (fun x => k))
  (at level 100, m at next level, right associativity).
Notation "m ;;; k" := (bind m (fun _ => k))
  (at level 100, right associativity).

(** [d.copy()]: a new dict object with the same items.  A reference that
    holds no dict stands for an argument that has no [copy] method. *)
Definition dict_copy {World} (d : loc) : M World loc :=
  fun s =>
    match heap s !! d with
    | Some items =>
        let a := fresh (dom (heap s)) in
        (Ok a, set_heap (<[a := items]> (heap s)) s)
    | None => (Raise (AttributeError "object has no attribute 'copy'"), s)
    end.

(** [d.get(key, dflt)]. *)
Definition dict_get {World} (d : loc) (key : string) (dflt : Z) : M World Z :=
  fun s =>
    match heap s !! d with
    | Some items => (Ok (default dflt (items !! key)), s)
    | None => (Raise (AttributeError "object has no attribute 'get'"), s)
    end.

(** [d[key] = v]: the dict object is updated in place. *)
Definition dict_setitem {World} (d : loc) (key : string) (v : Z) : M World unit :=
  fun s =>
    match heap s !! d with
    | Some items => (Ok tt, set_heap (<[d := <[key := v]> items]> (heap s)) s)
    | None =>
        (Raise (Exception "TypeError" "object does not support item assignment"), s)
    end.

(** [**d]: the items of the dict, unpacked into a new keyword mapping. *)
Definition dict_unpack {World} (d : loc) : M World (gmap string Z) :=
  fun s =>
    match heap s !! d with
    | Some items => (Ok items, s)
    | None => (Raise (Exception "TypeError" "argument after ** must be a mapping"), s)
    end.

(** ** The price series *)

(** A [pandas.DataFrame] as the engine reads it: the column labels and the
    rows, one value per column. *)
Record DataFrame : Type := {
  columns : list string;
  rows : list (list Q)
}.

(** [df.empty]: an axis of length 0. *)
Definition empty (df : DataFrame) : bool :=
  match columns df, rows df with
  | [], _ => true
  | _, [] => true
  | _, _ => false
  end.

(** [len(df)]. *)
Definition len (df : DataFrame) : Z := Z.of_nat (length (rows df)).

(** [col in df.columns]. *)
Definition has_column (df : DataFrame) (col : string) : bool :=
  existsb (String.eqb col) (columns df).

Definition required_columns : list string :=
  ["Open"; "High"; "Low"; "Close"; "Volume"].

(** [[col for col in required_columns if col not in df.columns]]. *)
Definition missing_columns (df : DataFrame) : list string :=
  List.filter (fun col => negb (has_column df col)) required_columns.

(** ** Strategies *)

Inductive strategy_class : Type :=
| SMAStrategy
| DonchianBreakoutStrategy
| MomentumStrategy.

Definition STRATEGY_MAP : list (string * strategy_class) :=
  [ ("sma_cross", SMAStrategy);
    ("donchian_breakout", DonchianBreakoutStrategy);
    ("momentum", MomentumStrategy) ].

(** [STRATEGY_MAP.get(key)]. *)
Fixpoint map_get (m : list (string * strategy_class)) (key : string)
  : option strategy_class :=
  match m with
  | [] => None
  | (k, v) :: rest => if String.eqb k key then Some v else map_get rest key
  end.

(** ** Parameter adjustment (lines 47-86 of [run_backtest]) *)

Section Adjust.
Context {World : Type}.

Definition adjust_parameters (strategy_type : string) (strategy_params : loc)
    (data_len : Z) : M World loc :=
  adjusted_params <- dict_copy strategy_params ;;
  (if String.eqb strategy_type "sma_cross" then
     slow <- dict_get adjusted_params "slow" 50 ;;
     let max_slow := Z.min slow (data_len / 3) in
     fast <- dict_get adjusted_params "fast" 20 ;;
     let max_fast := Z.min fast (max_slow - 1) in
     dict_setitem adjusted_params "slow" (Z.max 3 max_slow) ;;;
     dict_setitem adjusted_params "fast" (Z.max 2 max_fast) ;;;
     atr <- dict_get adjusted_params "atr_period" 14 ;;
     dict_setitem adjusted_params "atr_period"
       (Z.min atr (Z.max 2 (data_len / 4)))
   else if String.eqb strategy_type "donchian_breakout" then
     entry <- dict_get adjusted_params "entry_period" 20 ;;
     dict_setitem adjusted_params "entry_period"
       (Z.min entry (Z.max 2 (data_len / 3))) ;;;
     exit <- dict_get adjusted_params "exit_period" 10 ;;
     dict_setitem adjusted_params "exit_period"
       (Z.min exit (Z.max 2 (data_len / 4))) ;;;
     atr <- dict_get adjusted_params "atr_period" 14 ;;
     dict_setitem adjusted_params "atr_period"
       (Z.min atr (Z.max 2 (data_len / 4)))
   else if String.eqb strategy_type "momentum" then
     lookback <- dict_get adjusted_params "lookback" 60 ;;
     dict_setitem adjusted_params "lookback"
       (Z.min lookback (Z.max 5 (data_len / 2))) ;;;
     atr <- dict_get adjusted_params "atr_period" 14 ;;
     dict_setitem adjusted_params "atr_period"
       (Z.min atr (Z.max 2 (data_len / 4)))
   else ret tt) ;;;
  ret adjusted_params.

End Adjust.

(** ** What the Backtrader run leaves behind *)

Module Bt.

(** Modelled from the spec: the entries of [trades_list] are built by the
    strategy classes ([app/core/strategies], whose source is not
    available); section 3 of the specification gives the fields of a
    Trade. *)
Record Trade : Type := {
  entry_timestamp : Z;
  exit_timestamp : Z;
  entry_price : Q;
  exit_price : Q;
  quantity : Z;
  pnl : Q
}.

(** Modelled from the spec: the entries of [daily_positions], built by the
    same strategy classes; section 3 gives the fields of an EquityPoint. *)
Record EquityPoint : Type := {
  timestamp : Z;
  cash : Q;
  market_value : Q;
  equity : Q
}.

(** [cerebro.broker] after the run: the cash at hand and the position that
    is still open (size 0 when flat), priced at the last close. *)
Record broker : Type := {
  broker_cash : Q;
  position_size : Z;
  position_price : Q
}.

(** [broker.getcash()]. *)
Definition getcash (b : broker) : Q := broker_cash b.

(** [broker.getvalue()]: the portfolio value, the cash plus the open
    position marked to market. *)
Definition getvalue (b : broker) : Q :=
  (broker_cash b + inject_Z (position_size b) * position_price b)%Q.

(** The analysis of the TradeAnalyzer: the sub-dicts the orchestrator
    reads, each absent until the analyzer has something to put in it. *)
Record trades_dict : Type := {
  total : option (gmap string Z);
  won : option (gmap string Z);
  pnl_dict : option (gmap string (gmap string Q))
}.

(** The empty dict [{}]. *)
Definition no_trades : trades_dict :=
  {| total := None; won := None; pnl_dict := None |}.

(** [results[0]]: the strategy instance with its analyzers.  Each
    [get_analysis()] returns a dict or raises; [trades_list] and
    [daily_positions] are attributes the instance may lack. *)
Record strategy_instance : Type := {
  sharpe_analysis : result (gmap string (option pyfloat));
  drawdown_analysis : result (gmap string (gmap string Q));
  trades_analysis : result trades_dict;
  trades_list : option (list Trade);
  daily_positions_attr : option (list EquityPoint)
}.

(** A completed [cerebro.run()]: the first strategy instance, the broker,
    and the portfolio value the analyzers were notified of at each bar. *)
Record run_outcome : Type := {
  results_0 : strategy_instance;
  broker_after : broker;
  equity_curve : list Q
}.

(** What [cerebro] holds when [run] is called. *)
Record cerebro : Type := {
  data : DataFrame;
  strategy : strategy_class;
  strategy_kwargs : gmap string Z;
  start_cash : Q;
  commission_rate : Q
}.

End Bt.

(** ** The result *)

Record BacktestResult : Type := {
  final_cash : Q;
  total_return : Q;
  sharpe : option pyfloat;
  max_drawdown : Q;
  trades : list Bt.Trade;
  daily_positions : list Bt.EquityPoint;
  win_rate : Q;
  avg_trade_return : Q
}.

(** A dict is true when it has an item. *)
Definition truthy {V} (d : gmap string V) : bool := negb (Nat.eqb (size d) 0).

(** Lines 132-138: the Sharpe ratio, [None] when it is missing, NaN or
    infinite, or when reading it fails. *)
Definition extract_sharpe (analysis : result (gmap string (option pyfloat)))
  : option pyfloat :=
  match analysis with
  | Ok sharpe_analysis =>
      let sharpe := default None (sharpe_analysis !! "sharperatio") in
      match sharpe with
      | Some x =>
          if float_ne x x || float_eq x PosInf || float_eq x NegInf
          then None else Some x
      | None => None
      end
  | Raise _ => None
  end.

(** Lines 140-148: the maximum drawdown, from the analyzer's percentage
    to a fraction that is not positive; 0.0 when reading it fails. *)
Definition extract_max_drawdown (analysis : result (gmap string (gmap string Q)))
  : Q :=
  match analysis with
  | Ok drawdown =>
      let max_drawdown_value :=
        default 0%Q (default ∅ (drawdown !! "max") !! "drawdown") in
      if Qlt_le_dec 0 max_drawdown_value
      then (- max_drawdown_value / 100)%Q
      else (max_drawdown_value / 100)%Q
  | Raise _ => 0%Q
  end.

(** Lines 150-153. *)
Definition extract_trades_analysis (analysis : result Bt.trades_dict)
  : Bt.trades_dict :=
  match analysis with
  | Ok trades_analysis => trades_analysis
  | Raise _ => Bt.no_trades
  end.

(** Lines 160-161: [d.get(key, {}).get('total', 0) if d.get(key) else 0]. *)
Definition count_of (sub : option (gmap string Z)) : Z :=
  match sub with
  | Some d => if truthy d then default 0 (d !! "total") else 0
  | None => 0
  end.

(** Lines 164-170. *)
Definition extract_avg_trade_return (trades_analysis : Bt.trades_dict) : Q :=
  let pnl_analysis := default ∅ (Bt.pnl_dict trades_analysis) in
  match pnl_analysis !! "gross" with
  | Some gross =>
      if truthy pnl_analysis && truthy gross
      then
        let average := default 0%Q (gross !! "average") in
        if Qeq_bool average 0 then 0%Q else average
      else 0%Q
  | None => 0%Q
  end.

(** Line 179. *)
Definition compute_win_rate (won_trades total_trades : Z) : Q :=
  if 0 <? total_trades
  then (inject_Z won_trades / inject_Z (Z.max total_trades 1))%Q
  else 0%Q.

(** Lines 117-126: the result returned when the run fails. *)
Definition degraded_result (initial_cash : Q) : BacktestResult :=
  {| final_cash := initial_cash;
     total_return := 0%Q;
     sharpe := None;
     max_drawdown := 0%Q;
     trades := [];
     daily_positions := [];
     win_rate := 0%Q;
     avg_trade_return := 0%Q |}.

(** ** The orchestrator *)

Section Engine.

(** The state of everything outside the arguments of a call. *)
Variable World : Type.

(** [cerebro.run()] followed by [results[0]]: Backtrader replaying the
    series through the strategy.  It completes or raises, and may read and
    change the outside world. *)
Variable cerebro_run : Bt.cerebro -> World -> result Bt.run_outcome * World.

Definition run (c : Bt.cerebro) : M World Bt.run_outcome :=
  fun s =>
    let (r, w) := cerebro_run c (world s) in
    (r, State (heap s) w).

(** Lines 128-181: the result built from a completed run. *)
Definition build_result (o : Bt.run_outcome) (initial_cash : Q)
  : M World BacktestResult :=
  let strategy_instance := Bt.results_0 o in
  let final_value := Bt.getvalue (Bt.broker_after o) in
  match truediv (final_value - initial_cash)%Q initial_cash with
  | Raise e => raise e
  | Ok total_return =>
      let sharpe := extract_sharpe (Bt.sharpe_analysis strategy_instance) in
      let max_drawdown_value :=
        extract_max_drawdown (Bt.drawdown_analysis strategy_instance) in
      let trades_analysis :=
        extract_trades_analysis (Bt.trades_analysis strategy_instance) in
      let trades_list := default [] (Bt.trades_list strategy_instance) in
      let daily_positions :=
        default [] (Bt.daily_positions_attr strategy_instance) in
      let total_trades := count_of (Bt.total trades_analysis) in
      let won_trades := count_of (Bt.won trades_analysis) in
      let avg_trade_return := extract_avg_trade_return trades_analysis in
      ret {| final_cash := final_value;
             total_return := total_return;
             sharpe := sharpe;
             max_drawdown := max_drawdown_value;
             trades := trades_list;
             daily_positions := daily_positions;
             win_rate := compute_win_rate won_trades total_trades;
             avg_trade_return := avg_trade_return |}
  end.

Definition run_backtest (df : option DataFrame) (strategy_type : string)
    (strategy_params : loc) (initial_cash commission : Q)
  : M World BacktestResult :=
  match df with
  | None => raise (ValueError "DataFrame is empty")
  | Some df =>
      if empty df then raise (ValueError "DataFrame is empty")
      else
        match missing_columns df with
        | (_ :: _) as missing =>
            raise (ValueError ("Missing required columns: " ++ repr_list missing))
        | [] =>
            if len df <? 5
            then raise (ValueError "DataFrame must have at least 5 rows for backtest")
            else
              adjusted_params <- adjust_parameters strategy_type strategy_params (len df) ;;
              match map_get STRATEGY_MAP strategy_type with
              | None =>
                  raise (ValueError ("Unknown strategy type: " ++ strategy_type))
              | Some strategy_class =>
                  kwargs <- dict_unpack adjusted_params ;;
                  let cerebro :=
                    {| Bt.data := df;
                       Bt.strategy := strategy_class;
                       Bt.strategy_kwargs := kwargs;
                       Bt.start_cash := initial_cash;
                       Bt.commission_rate := commission |} in
                  completed <- try_except
                                 (o <- run cerebro ;; ret (Some o))
                                 (fun _ => ret None) ;;
                  match completed with
                  | None => ret (degraded_result initial_cash)
                  | Some o => build_result o initial_cash
                  end
              end
        end
  end.

End Engine.

Arguments run {World} cerebro_run c.
Arguments build_result {World} o initial_cash.
Arguments run_backtest {World} cerebro_run df strategy_type strategy_params
  initial_cash commission.

(** ** Backtrader's DrawDown analyzer

    The analyzer the orchestrator registers under the name [drawdown]
    (library code): at each bar it is notified of the portfolio value,
    keeps the running peak, and records the largest drop from the peak,
    in money and as a percentage of the peak. *)

Module DrawDown.

(** [max(a, b)] of Python: [b] when [b > a], else [a]. *)
Definition py_max (a b : Q) : Q := if Qlt_le_dec a b then b else a.

(** The analyzer's state: [_maxvalue] ([None] for the initial
    [float('-inf')]) and the entries of [rets.max]. *)
Record t : Type := {
  maxvalue : option Q;
  max_drawdown_pct : Q;
  max_moneydown : Q
}.

Definition create_analysis : t :=
  {| maxvalue := None; max_drawdown_pct := 0%Q; max_moneydown := 0%Q |}.

(** [notify_fund] followed by [next], for one bar. *)
Definition next (st : t) (value : Q) : result t :=
  let peak :=
    match maxvalue st with
    | None => value
    | Some m => py_max m value
    end in
  let moneydown := (peak - value)%Q in
  match truediv (100 * moneydown)%Q peak with
  | Raise e => Raise e
  | Ok drawdown =>
      Ok {| maxvalue := Some peak;
            max_drawdown_pct := py_max (max_drawdown_pct st) drawdown;
            max_moneydown := py_max (max_moneydown st) moneydown |}
  end.

Fixpoint replay (st : t) (values : list Q) : result t :=
  match values with
  | [] => Ok st
  | value :: rest =>
      match next st value with
      | Ok st' => replay st' rest
      | Raise e => Raise e
      end
  end.

(** [get_analysis()]: the sub-dict [max] of the analysis. *)
Definition get_analysis (st : t) : gmap string (gmap string Q) :=
  {[ "max" := {[ "drawdown" := max_drawdown_pct st;
                 "moneydown" := max_moneydown st ]} ]}.

(** The analysis over a whole equity curve. *)
Definition analyze (values : list Q) : result (gmap string (gmap string Q)) :=
  match replay create_analysis values with
  | Ok st => Ok (get_analysis st)
  | Raise e => Raise e
  end.

End DrawDown.

(** ** Vocabulary of the statements *)

(** An equity curve that never falls. *)
Fixpoint nondecreasing (values : list Q) : bool :=
  match values with
  | x :: ((y :: _) as rest) => Qle_bool x y && nondecreasing rest
  | _ => true
  end.

(** The peak the analyzer has seen is not above the next value of the curve. *)
Definition below_next (st : DrawDown.t) (values : list Q) : Prop :=
  match DrawDown.maxvalue st, values with
  | Some m, value :: _ => (m <= value)%Q
  | _, _ => True
  end.

(** The drawdown analysis of a run is the one the DrawDown analyzer
    computes over the run's equity curve. *)
Definition drawdown_reported (o : Bt.run_outcome) : Prop :=
  Bt.drawdown_analysis (Bt.results_0 o) = DrawDown.analyze (Bt.equity_curve o).

(** A series that passes the validation of lines 34-44. *)
Definition valid_series (df : DataFrame) : Prop :=
  empty df = false /\ missing_columns df = [] /\ 5 <= len df.

(** The items of the adjusted dict, in closed form. *)
Definition adjusted_items (strategy_type : string) (data_len : Z)
    (items : gmap string Z) : gmap string Z :=
  let atr := Z.min (default 14 (items !! "atr_period")) (Z.max 2 (data_len / 4)) in
  if String.eqb strategy_type "sma_cross" then
    let max_slow := Z.min (default 50 (items !! "slow")) (data_len / 3) in
    let max_fast := Z.min (default 20 (items !! "fast")) (max_slow - 1) in
    <["atr_period" := atr]>
      (<["fast" := Z.max 2 max_fast]> (<["slow" := Z.max 3 max_slow]> items))
  else if String.eqb strategy_type "donchian_breakout" then
    <["atr_period" := atr]>
      (<["exit_period" :=
           Z.min (default 10 (items !! "exit_period")) (Z.max 2 (data_len / 4))]>
         (<["entry_period" :=
              Z.min (default 20 (items !! "entry_period")) (Z.max 2 (data_len / 3))]>
            items))
  else if String.eqb strategy_type "momentum" then
    <["atr_period" := atr]>
      (<["lookback" :=
           Z.min (default 60 (items !! "lookback")) (Z.max 5 (data_len / 2))]>
         items)
  else items.

(** The engine as [run_backtest] configures it. *)
Definition configured (df : DataFrame) (strategy_type : string)
    (strategy_class : strategy_class) (items : gmap string Z)
    (initial_cash commission : Q) : Bt.cerebro :=
  {| Bt.data := df;
     Bt.strategy := strategy_class;
     Bt.strategy_kwargs := adjusted_items strategy_type (len df) items;
     Bt.start_cash := initial_cash;
     Bt.commission_rate := commission |}.

(** The heap after the clamping: the caller's dicts and the adjusted copy. *)
Definition heap_after {World} (strategy_type : string) (df : DataFrame)
    (items : gmap string Z) (s : state World) : gmap loc (gmap string Z) :=
  <[fresh (dom (heap s)) := adjusted_items strategy_type (len df) items]> (heap s).

(** Backtrader's run as the DrawDown analyzer of line 107 takes part in it
    (library behaviour).  The broker starts from the initial cash and nothing
    is traded before the first bar is notified, so the first portfolio value
    the analyzers see is the initial cash; there is one value per bar; and
    the analyzer works at every bar inside the run, so a run completes only
    if the analyzer did not raise on its equity curve. *)
Definition drawdown_observed {World}
    (cerebro_run : Bt.cerebro -> World -> result Bt.run_outcome * World) : Prop :=
  forall c w o w',
    cerebro_run c w = (Ok o, w') ->
    length (Bt.equity_curve o) = length (rows (Bt.data c))
    /\ (forall value rest,
           Bt.equity_curve o = value :: rest -> (value == Bt.start_cash c)%Q)
    /\ exists analysis, DrawDown.analyze (Bt.equity_curve o) = Ok analysis.

(** ** Sample inputs *)

Module Sample.

(** A flat bar: open, high, low, close, volume. *)
Definition bar : list Q := [100%Q; 101%Q; 99%Q; 100%Q; 1000%Q].

(** A series of [n] bars with the required columns. *)
Definition series (n : nat) : DataFrame :=
  {| columns := required_columns; rows := repeat bar n |}.

(** The same series without its [Volume] column. *)
Definition series_without_volume (n : nat) : DataFrame :=
  {| columns := ["Open"; "High"; "Low"; "Close"];
     rows := repeat [100%Q; 101%Q; 99%Q; 100%Q] n |}.

(** The caller's mapping, the only dict object of the heap. *)
Definition params : loc := 1%positive.

Definition caller (items : gmap string Z) : state unit :=
  State {[ params := items ]} tt.

(** A run that ends flat with 100000 in cash, and no analysis. *)
Definition flat_instance : Bt.strategy_instance :=
  {| Bt.sharpe_analysis := Ok ∅;
     Bt.drawdown_analysis := Ok ∅;
     Bt.trades_analysis := Ok Bt.no_trades;
     Bt.trades_list := Some [];
     Bt.daily_positions_attr := Some [] |}.

Definition flat_outcome : Bt.run_outcome :=
  {| Bt.results_0 := flat_instance;
     Bt.broker_after :=
       {| Bt.broker_cash := 100000%Q; Bt.position_size := 0; Bt.position_price := 0%Q |};
     Bt.equity_curve := [100000%Q; 100000%Q; 100000%Q; 100000%Q; 100000%Q] |}.

(** A run that ends long: 40000 in cash and 100 shares marked at 600. *)
Definition long_outcome : Bt.run_outcome :=
  {| Bt.results_0 := flat_instance;
     Bt.broker_after :=
       {| Bt.broker_cash := 40000%Q; Bt.position_size := 100; Bt.position_price := 600%Q |};
     Bt.equity_curve := [100000%Q; 100000%Q; 100000%Q; 100000%Q; 100000%Q] |}.

(** A run over the rising curve 100, 110, 120, 130, 140, with the
    analysis the DrawDown analyzer gives for it. *)
Definition rising_curve : list Q := [100%Q; 110%Q; 120%Q; 130%Q; 140%Q].

Definition rising_outcome : Bt.run_outcome :=
  {| Bt.results_0 :=
       {| Bt.sharpe_analysis := Ok {[ "sharperatio" := Some (Finite (3 # 2)) ]};
          Bt.drawdown_analysis := DrawDown.analyze rising_curve;
          Bt.trades_analysis := Ok Bt.no_trades;
          Bt.trades_list := Some [];
          Bt.daily_positions_attr := Some [] |};
     Bt.broker_after :=
       {| Bt.broker_cash := 140%Q; Bt.position_size := 0; Bt.position_price := 0%Q |};
     Bt.equity_curve := rising_curve |}.

(** A commission of 0.1%. *)
Definition com : Q := 1 # 1000.

(** An engine that completes with the given outcome, whatever it is run on. *)
Definition completes (o : Bt.run_outcome)
  : Bt.cerebro -> unit -> result Bt.run_outcome * unit :=
  fun _ w => (Ok o, w).

(** An engine that trades nothing: the portfolio is worth the initial cash
    at every bar, and the run raises where the DrawDown analyzer does. *)
Definition quiet : Bt.cerebro -> unit -> result Bt.run_outcome * unit :=
  fun c w =>
    let curve := map (fun _ => Bt.start_cash c) (rows (Bt.data c)) in
    match DrawDown.analyze curve with
    | Ok analysis =>
        (Ok {| Bt.results_0 :=
                 {| Bt.sharpe_analysis := Ok ∅;
                    Bt.drawdown_analysis := Ok analysis;
                    Bt.trades_analysis := Ok Bt.no_trades;
                    Bt.trades_list := Some [];
                    Bt.daily_positions_attr := Some [] |};
               Bt.broker_after :=
                 {| Bt.broker_cash := Bt.start_cash c;
                    Bt.position_size := 0;
                    Bt.position_price := 0%Q |};
               Bt.equity_curve := curve |}, w)
    | Raise e => (Raise e, w)
    end.

(** An engine whose run raises. *)
Definition fails : Bt.cerebro -> unit -> result Bt.run_outcome * unit :=
  fun _ w => (Raise (Exception "IndexError" "array index out of range"), w).

End Sample.

(** ** Vocabulary of the further statements *)

(** The keys the clamping of a variant writes (lines 55-62, 65-76, 79-86). *)
Definition clamped_keys (strategy_type : string) : list string :=
  if String.eqb strategy_type "sma_cross" then ["slow"; "fast"; "atr_period"]
  else if String.eqb strategy_type "donchian_breakout"
       then ["entry_period"; "exit_period"; "atr_period"]
  else if String.eqb strategy_type "momentum" then ["lookback"; "atr_period"]
  else [].

(** The clamping of the dict at [p] returns a dict object other than [p]
    that holds [adjusted]. *)
Definition adjusts_to {World} (strategy_type : string) (p : loc) (data_len : Z)
    (s : state World) (adjusted : gmap string Z) : Prop :=
  exists a s',
    adjust_parameters strategy_type p data_len s = (Ok a, s')
    /\ a <> p
    /\ heap s' !! a = Some adjusted.

(** Two results with the same fields, numbers compared with [==]. *)
Definition result_eq (r1 r2 : BacktestResult) : Prop :=
  (final_cash r1 == final_cash r2)%Q
  /\ (total_return r1 == total_return r2)%Q
  /\ sharpe r1 = sharpe r2
  /\ (max_drawdown r1 == max_drawdown r2)%Q
  /\ trades r1 = trades r2
  /\ daily_positions r1 = daily_positions r2
  /\ (win_rate r1 == win_rate r2)%Q
  /\ (avg_trade_return r1 == avg_trade_return r2)%Q.

(** A completed run in which nothing happened: the portfolio is worth the
    initial cash, no Sharpe ratio, no drawdown, no trade, nothing recorded. *)
Definition idle_run (o : Bt.run_outcome) (initial_cash : Q) : Prop :=
  let instance := Bt.results_0 o in
  let trades_analysis := extract_trades_analysis (Bt.trades_analysis instance) in
  (Bt.getvalue (Bt.broker_after o) == initial_cash)%Q
  /\ extract_sharpe (Bt.sharpe_analysis instance) = None
  /\ (extract_max_drawdown (Bt.drawdown_analysis instance) == 0)%Q
  /\ count_of (Bt.total trades_analysis) <= 0
  /\ Bt.pnl_dict trades_analysis = None
  /\ default [] (Bt.trades_list instance) = []
  /\ default [] (Bt.daily_positions_attr instance) = [].

(** The call is on an accepted input (a valid series, a supported variant,
    a mapping) and the engine completes with the outcome [o]. *)
Definition completes_with {World}
    (cerebro_run : Bt.cerebro -> World -> result Bt.run_outcome * World)
    (df : DataFrame) (strategy_type : string) (p : loc) (initial_cash commission : Q)
    (s : state World) (o : Bt.run_outcome) : Prop :=
  exists cls items w,
    valid_series df
    /\ map_get STRATEGY_MAP strategy_type = Some cls
    /\ heap s !! p = Some items
    /\ cerebro_run (configured df strategy_type cls items initial_cash commission)
         (world s) = (Ok o, w).

(** [d.get(k1, {}).get(k2, dflt)] without the truthiness guards. *)
Definition nested_get {V} (d : option (gmap string V)) (key : string) (dflt : V) : V :=
  default dflt (d ≫= (fun sub => sub !! key)).

(** ** Position sizing

    [SimplePositionCalculator] of [test/test_core_comprehensive.py]
    (lines 116-135), the calculation its docstring says is the one of
    [BaseStrategy], on the binary64 floats of Python. *)

Module Sizer.
Import Floats.

(** [a / b] on floats: a zero divisor, of either sign, raises. *)
Definition float_truediv (a b : float) : result float :=
  if PrimFloat.eqb b 0%float then Raise ZeroDivisionError
  else Ok (PrimFloat.div a b).

(** [int(x)] on a float: truncation towards zero; NaN and the infinities
    raise. *)
Definition py_int (x : float) : result Z :=
  match Prim2SF x with
  | S754_zero _ => Ok 0
  | S754_finite sign mantissa exponent =>
      Ok (cond_Zopp sign (Z.shiftl (Zpos mantissa) exponent))
  | S754_infinity _ =>
      Raise (Exception "OverflowError" "cannot convert float infinity to integer")
  | S754_nan => Raise (ValueError "cannot convert float NaN to integer")
  end.

(** [self.broker]: what [get_value()] and [get_cash()] return. *)
Record broker : Type := {
  get_value : float;
  get_cash : float
}.

Record SimplePositionCalculator : Type := {
  self_broker : broker
}.

(** [__init__]: the mock broker of the test. *)
Definition init : SimplePositionCalculator :=
  {| self_broker := {| get_value := 100000%float; get_cash := 50000%float |} |}.

(** The float literal [0.01]. *)
Definition one_percent : float := 0x1.47ae147ae147bp-7%float.

(** [calculate_position_size], in binary64 arithmetic; whatever raises
    inside the [try] gives 0. *)
Definition calculate_position_size (self : SimplePositionCalculator)
    (price stop_price : float) : Z :=
  let risk_per_trade := PrimFloat.mul (get_value (self_broker self)) one_percent in
  let risk_per_share := PrimFloat.abs (PrimFloat.sub price stop_price) in
  if PrimFloat.eqb risk_per_share 0%float then 0
  else
    match float_truediv risk_per_trade risk_per_share with
    | Raise _ => 0
    | Ok per_share =>
        match py_int per_share with
        | Raise _ => 0
        | Ok position_size =>
            match float_truediv (get_cash (self_broker self)) price with
            | Raise _ => 0
            | Ok affordable =>
                match py_int affordable with
                | Raise _ => 0
                | Ok max_affordable => Z.min position_size max_affordable
                end
            end
        end
    end.

End Sizer.

(** ** Further sample runs *)

Module Sample2.

(** Four closed trades, three of them won, with an average gross profit
    of 25; a maximum drawdown of 25 percent. *)
Definition traded_outcome : Bt.run_outcome :=
  {| Bt.results_0 :=
       {| Bt.sharpe_analysis := Ok {[ "sharperatio" := Some NaN ]};
          Bt.drawdown_analysis := Ok {[ "max" := {[ "drawdown" := 25%Q ]} ]};
          Bt.trades_analysis :=
            Ok {| Bt.total := Some {[ "total" := 4; "closed" := 4 ]};
                  Bt.won := Some {[ "total" := 3 ]};
                  Bt.pnl_dict :=
                    Some {[ "gross" := {[ "total" := 100%Q; "average" := 25%Q ]} ]} |};
          Bt.trades_list := Some [];
          Bt.daily_positions_attr := None |};
     Bt.broker_after :=
       {| Bt.broker_cash := 1100%Q; Bt.position_size := 0; Bt.position_price := 0%Q |};
     Bt.equity_curve := [1000%Q; 1200%Q; 900%Q; 1000%Q; 1100%Q] |}.

(** A run all of whose analyzers fail to report. *)
Definition silent_outcome : Bt.run_outcome :=
  {| Bt.results_0 :=
       {| Bt.sharpe_analysis := Raise (Exception "KeyError" "sharpe");
          Bt.drawdown_analysis := Raise (Exception "KeyError" "drawdown");
          Bt.trades_analysis := Raise (Exception "KeyError" "trades");
          Bt.trades_list := Some [];
          Bt.daily_positions_attr := Some [] |};
     Bt.broker_after :=
       {| Bt.broker_cash := 900%Q; Bt.position_size := 2; Bt.position_price := 100%Q |};
     Bt.equity_curve := [1000%Q; 1000%Q; 1000%Q; 1000%Q; 1100%Q] |}.

(** A second engine, which agrees with [Sample.completes o] on every run. *)
Definition completes_too (o : Bt.run_outcome)
  : Bt.cerebro -> unit -> result Bt.run_outcome * unit :=
  fun c w => match Bt.strategy c with
             | SMAStrategy => (Ok o, w)
             | _ => (Ok o, w)
             end.

End Sample2.

(** Closes a side condition on concrete data by evaluation. *)
Ltac evaluate :=
  first [ reflexivity
        | lia
        | vm_compute; first [ reflexivity | discriminate | intro; discriminate ] ].

(** ** The heap operations, step by step *)

Section HeapSteps.
Context {World : Type}.
Implicit Types (s : state World) (h : gmap loc (gmap string Z)).

Lemma fresh_not_allocated h : h !! fresh (dom h) = None.
Proof. apply not_elem_of_dom, is_fresh. Qed.

Lemma dict_get_at a items key dflt h (w : World) :
  dict_get a key dflt (State (<[a := items]> h) w)
  = (Ok (default dflt (items !! key)), State (<[a := items]> h) w).
Proof. unfold dict_get; simpl. by rewrite lookup_insert_eq. Qed.

Lemma dict_setitem_at a items key v h (w : World) :
  dict_setitem a key v (State (<[a := items]> h) w)
  = (Ok tt, State (<[a := <[key := v]> items]> h) w).
Proof.
  unfold dict_setitem, set_heap; simpl.
  by rewrite lookup_insert_eq, insert_insert_eq.
Qed.

Lemma dict_unpack_at a items h (w : World) :
  dict_unpack a (State (<[a := items]> h) w)
  = (Ok items, State (<[a := items]> h) w).
Proof. unfold dict_unpack; simpl. by rewrite lookup_insert_eq. Qed.

Lemma adjust_parameters_items strategy_type p n s items :
  heap s !! p = Some items ->
  adjust_parameters strategy_type p n s
  = (Ok (fresh (dom (heap s))),
     State (<[fresh (dom (heap s)) := adjusted_items strategy_type n items]> (heap s))
           (world s)).
Proof.
  intros Hp. unfold adjust_parameters, adjusted_items, bind at 1.
  unfold dict_copy at 1. rewrite Hp. unfold set_heap.
  set (a := fresh (dom (heap s))). set (h := heap s). set (w := world s).
  destruct (String.eqb strategy_type "sma_cross");
    [| destruct (String.eqb strategy_type "donchian_breakout");
       [| destruct (String.eqb strategy_type "momentum")]];
    unfold bind, ret;
    repeat (rewrite ?dict_get_at, ?dict_setitem_at; cbv beta iota);
    rewrite ?lookup_insert_ne by done; reflexivity.
Qed.

Lemma adjust_parameters_unallocated strategy_type p n s :
  heap s !! p = None ->
  adjust_parameters strategy_type p n s
  = (Raise (AttributeError "object has no attribute 'copy'"), s).
Proof.
  intros Hp. unfold adjust_parameters, bind at 1, dict_copy at 1.
  by rewrite Hp.
Qed.

End HeapSteps.

(** ** The orchestrator, case by case *)

Section Orchestrator.
Context {World : Type}.
Variable cerebro_run : Bt.cerebro -> World -> result Bt.run_outcome * World.
Implicit Types (s : state World) (df : DataFrame) (o : Bt.run_outcome).

(** Building the result touches neither the heap nor the world. *)
Lemma build_result_pure o ic s :
  build_result o ic s = (fst (build_result o ic s), s).
Proof.
  unfold build_result. destruct (truediv _ ic); reflexivity.
Qed.

Lemma build_result_fst o ic s s' :
  fst (build_result o ic s) = fst (build_result o ic s').
Proof.
  unfold build_result. destruct (truediv _ ic); reflexivity.
Qed.

Lemma truediv_nonzero a b : ~ (b == 0)%Q -> truediv a b = Ok (a / b)%Q.
Proof.
  intros Hb. unfold truediv. destruct (Qeq_bool b 0) eqn:E; [| reflexivity].
  apply Qeq_bool_iff in E. contradiction.
Qed.

Lemma truediv_zero a b : (b == 0)%Q -> truediv a b = Raise ZeroDivisionError.
Proof.
  intros Hb. unfold truediv. apply Qeq_bool_iff in Hb. by rewrite Hb.
Qed.

(** A completed run with a non-zero initial cash gives a result. *)
Lemma build_result_returns o ic s :
  ~ (ic == 0)%Q ->
  exists r,
    build_result o ic s = (Ok r, s)
    /\ final_cash r = Bt.getvalue (Bt.broker_after o)
    /\ total_return r = ((Bt.getvalue (Bt.broker_after o) - ic) / ic)%Q
    /\ sharpe r = extract_sharpe (Bt.sharpe_analysis (Bt.results_0 o))
    /\ max_drawdown r = extract_max_drawdown (Bt.drawdown_analysis (Bt.results_0 o)).
Proof.
  intros Hic. unfold build_result. rewrite (truediv_nonzero _ _ Hic).
  eexists. split; [reflexivity |]. repeat split.
Qed.

(** With a zero initial cash the total return cannot be computed. *)
Lemma build_result_zero o ic s :
  (ic == 0)%Q -> build_result o ic s = (Raise ZeroDivisionError, s).
Proof.
  intros Hic. unfold build_result. by rewrite (truediv_zero _ _ Hic).
Qed.

(** Whatever [build_result] returns has the fields of lines 172-181. *)
Lemma build_result_inv o ic s r s' :
  build_result o ic s = (Ok r, s') ->
  ~ (ic == 0)%Q
  /\ final_cash r = Bt.getvalue (Bt.broker_after o)
  /\ total_return r = ((Bt.getvalue (Bt.broker_after o) - ic) / ic)%Q
  /\ sharpe r = extract_sharpe (Bt.sharpe_analysis (Bt.results_0 o))
  /\ max_drawdown r = extract_max_drawdown (Bt.drawdown_analysis (Bt.results_0 o)).
Proof.
  intros H. destruct (Qeq_dec ic 0) as [Hz | Hnz].
  - rewrite (build_result_zero _ _ _ Hz) in H. discriminate.
  - destruct (build_result_returns o ic s Hnz) as (r' & Hr & Hfields).
    rewrite Hr in H. injection H as -> _. by split.
Qed.

(** [run_backtest], with the monad unfolded. *)
Lemma run_backtest_unfold (df : option DataFrame) strategy_type p ic com s :
  run_backtest cerebro_run df strategy_type p ic com s
  = match df with
    | None => (Raise (ValueError "DataFrame is empty"), s)
    | Some d =>
        if empty d then (Raise (ValueError "DataFrame is empty"), s)
        else
          match missing_columns d with
          | (_ :: _) as missing =>
              (Raise (ValueError ("Missing required columns: " ++ repr_list missing)), s)
          | [] =>
              if len d <? 5
              then (Raise (ValueError "DataFrame must have at least 5 rows for backtest"), s)
              else
                match heap s !! p with
                | None => (Raise (AttributeError "object has no attribute 'copy'"), s)
                | Some items =>
                    let s1 := State (heap_after strategy_type d items s) (world s) in
                    match map_get STRATEGY_MAP strategy_type with
                    | None =>
                        (Raise (ValueError ("Unknown strategy type: " ++ strategy_type)), s1)
                    | Some cls =>
                        match cerebro_run (configured d strategy_type cls items ic com)
                                (world s) with
                        | (Ok o, w) =>
                            build_result o ic
                              (State (heap_after strategy_type d items s) w)
                        | (Raise _, w) =>
                            (Ok (degraded_result ic),
                             State (heap_after strategy_type d items s) w)
                        end
                    end
                end
          end
    end.
Proof.
  unfold run_backtest. destruct df as [d |]; [| reflexivity].
  destruct (empty d); [reflexivity |].
  destruct (missing_columns d); [| reflexivity].
  destruct (len d <? 5); [reflexivity |].
  unfold bind at 1. destruct (heap s !! p) as [items |] eqn:Hp.
  - rewrite (adjust_parameters_items _ _ _ _ _ Hp).
    destruct (map_get STRATEGY_MAP strategy_type) as [cls |]; [| reflexivity].
    unfold bind at 1. rewrite dict_unpack_at.
    unfold bind at 1, try_except, bind at 1, run, ret; simpl.
    unfold configured, heap_after.
    destruct (cerebro_run _ (world s)) as [[o | e] w]; reflexivity.
  - by rewrite (adjust_parameters_unallocated _ _ _ _ Hp).
Qed.

Lemma run_backtest_accepted df strategy_type cls p items ic com s :
  valid_series df ->
  map_get STRATEGY_MAP strategy_type = Some cls ->
  heap s !! p = Some items ->
  run_backtest cerebro_run (Some df) strategy_type p ic com s
  = match cerebro_run (configured df strategy_type cls items ic com) (world s) with
    | (Ok o, w) => build_result o ic (State (heap_after strategy_type df items s) w)
    | (Raise _, w) =>
        (Ok (degraded_result ic), State (heap_after strategy_type df items s) w)
    end.
Proof.
  intros (Hne & Hcols & Hlen) Hcls Hp. rewrite run_backtest_unfold.
  rewrite Hne, Hcols, Hp, Hcls.
  destruct (len df <? 5) eqn:E; [apply Z.ltb_lt in E; lia | reflexivity].
Qed.

(** A call that returns a result was given a valid series, a supported
    variant and a mapping. *)
Lemma run_backtest_ok_inv (df : option DataFrame) strategy_type p ic com s r s' :
  run_backtest cerebro_run df strategy_type p ic com s = (Ok r, s') ->
  exists d cls items,
    df = Some d /\ valid_series d
    /\ map_get STRATEGY_MAP strategy_type = Some cls
    /\ heap s !! p = Some items.
Proof.
  rewrite run_backtest_unfold. destruct df as [d |]; [| discriminate].
  destruct (empty d) eqn:He; [discriminate |].
  destruct (missing_columns d) eqn:Hm; [| discriminate].
  destruct (len d <? 5) eqn:Hl; [discriminate |].
  destruct (heap s !! p) as [items |]; [| discriminate].
  destruct (map_get STRATEGY_MAP strategy_type) as [cls |]; [| discriminate].
  intros _. exists d, cls, items. apply Z.ltb_ge in Hl. by repeat split.
Qed.

(** With a non-zero initial cash, an accepted input gives a result: the
    degraded one when the run raises, the built one when it completes. *)
Lemma run_backtest_returns df strategy_type cls p items ic com s :
  valid_series df ->
  map_get STRATEGY_MAP strategy_type = Some cls ->
  heap s !! p = Some items ->
  ~ (ic == 0)%Q ->
  exists r s',
    run_backtest cerebro_run (Some df) strategy_type p ic com s = (Ok r, s')
    /\ match fst (cerebro_run (configured df strategy_type cls items ic com) (world s)) with
       | Ok o => fst (build_result o ic s) = Ok r
       | Raise _ => r = degraded_result ic
       end.
Proof.
  intros Hv Hcls Hp Hic. rewrite (run_backtest_accepted _ _ _ _ _ _ _ _ Hv Hcls Hp).
  destruct (cerebro_run _ (world s)) as [[o | e] w]; simpl.
  - destruct (build_result_returns o ic (State (heap_after strategy_type df items s) w) Hic)
      as (r & Hr & _).
    exists r, (State (heap_after strategy_type df items s) w). split; [exact Hr |].
    rewrite (build_result_fst o ic s (State (heap_after strategy_type df items s) w)).
    by rewrite Hr.
  - by eexists _, _.
Qed.

(** The dicts that exist before the call are what they were after it. *)
Lemma run_backtest_frame (df : option DataFrame) strategy_type p ic com s l :
  is_Some (heap s !! l) ->
  heap (snd (run_backtest cerebro_run df strategy_type p ic com s)) !! l = heap s !! l.
Proof.
  intros Hl. rewrite run_backtest_unfold.
  assert (Hfresh : forall d items,
             heap_after strategy_type d items s !! l = heap s !! l).
  { intros d items. unfold heap_after. apply lookup_insert_ne.
    intros <-. rewrite fresh_not_allocated in Hl. by destruct Hl. }
  destruct df as [d |]; [| reflexivity].
  destruct (empty d); [reflexivity |].
  destruct (missing_columns d); [| reflexivity].
  destruct (len d <? 5); [reflexivity |].
  destruct (heap s !! p) as [items |]; [| reflexivity].
  destruct (map_get STRATEGY_MAP strategy_type) as [cls |]; [| apply Hfresh].
  destruct (cerebro_run _ (world s)) as [[o | e] w]; [| apply Hfresh].
  rewrite build_result_pure. apply Hfresh.
Qed.

End Orchestrator.

(** ** Parameter clamping *)

Section Clamping.
Context {World : Type}.
Implicit Types (s : state World) (items : gmap string Z).

(** What is stored under the keys the clamping writes. *)
Lemma adjusted_sma_cross n items :
  let max_slow := Z.min (default 50 (items !! "slow")) (n / 3) in
  adjusted_items "sma_cross" n items !! "slow" = Some (Z.max 3 max_slow)
  /\ adjusted_items "sma_cross" n items !! "fast"
     = Some (Z.max 2 (Z.min (default 20 (items !! "fast")) (max_slow - 1))).
Proof.
  unfold adjusted_items; simpl.
  split; repeat (rewrite lookup_insert_ne by done); by rewrite lookup_insert_eq.
Qed.

Lemma adjusted_donchian n items :
  adjusted_items "donchian_breakout" n items !! "entry_period"
  = Some (Z.min (default 20 (items !! "entry_period")) (Z.max 2 (n / 3)))
  /\ adjusted_items "donchian_breakout" n items !! "exit_period"
     = Some (Z.min (default 10 (items !! "exit_period")) (Z.max 2 (n / 4))).
Proof.
  unfold adjusted_items; simpl.
  split; repeat (rewrite lookup_insert_ne by done); by rewrite lookup_insert_eq.
Qed.

Lemma adjusted_momentum n items :
  adjusted_items "momentum" n items !! "lookback"
  = Some (Z.min (default 60 (items !! "lookback")) (Z.max 5 (n / 2))).
Proof.
  unfold adjusted_items; simpl.
  repeat (rewrite lookup_insert_ne by done); by rewrite lookup_insert_eq.
Qed.

(** C6. For a series of length [n >= 5] and any requested mapping, the
    adjusted SmaCross parameters, as stored in the adjusted dict, satisfy
    [3 <= slow], [2 <= fast] and [fast < slow]. *)
Theorem sma_cross_adjusted_order s p items n :
  heap s !! p = Some items ->
  5 <= n ->
  exists a s' adjusted slow fast,
    adjust_parameters "sma_cross" p n s = (Ok a, s')
    /\ heap s' !! a = Some adjusted
    /\ adjusted !! "slow" = Some slow
    /\ adjusted !! "fast" = Some fast
    /\ 3 <= slow /\ 2 <= fast /\ fast < slow.
Proof.
  intros Hp _. rewrite (adjust_parameters_items _ _ _ _ _ Hp).
  destruct (adjusted_sma_cross n items) as [Hslow Hfast].
  eexists _, _, _, _, _. split; [reflexivity |].
  split; [apply lookup_insert_eq |].
  split; [exact Hslow |]. split; [exact Hfast |]. lia.
Qed.

(** C2, as the code has it. For a series of length [n >= 5] and any
    requested mapping, the adjusted DonchianBreakout periods are
    [min(requested entry default 20, max(2, n/3))] and
    [min(requested exit default 10, max(2, n/4))], and the adjusted Momentum
    lookback is [min(requested lookback default 60, max(5, n/2))]: the
    bounds 2 and 5 are floors on the cap taken from the data, and the
    adjusted value equals [max(bound, min(requested, n/k))] exactly when
    the requested value is at least the bound; a smaller requested value is
    kept as it is. *)
Theorem donchian_momentum_adjusted s p items n :
  heap s !! p = Some items ->
  5 <= n ->
  let entry := default 20 (items !! "entry_period") in
  let exit := default 10 (items !! "exit_period") in
  let lookback := default 60 (items !! "lookback") in
  (exists a s' adjusted entry' exit',
      adjust_parameters "donchian_breakout" p n s = (Ok a, s')
      /\ heap s' !! a = Some adjusted
      /\ adjusted !! "entry_period" = Some entry'
      /\ adjusted !! "exit_period" = Some exit'
      /\ entry' = Z.min entry (Z.max 2 (n / 3))
      /\ exit' = Z.min exit (Z.max 2 (n / 4))
      /\ (2 <= entry -> entry' = Z.max 2 (Z.min entry (n / 3)))
      /\ (2 <= exit -> exit' = Z.max 2 (Z.min exit (n / 4)))
      /\ (entry < 2 -> entry' = entry)
      /\ (exit < 2 -> exit' = exit))
  /\ (exists a s' adjusted lookback',
         adjust_parameters "momentum" p n s = (Ok a, s')
         /\ heap s' !! a = Some adjusted
         /\ adjusted !! "lookback" = Some lookback'
         /\ lookback' = Z.min lookback (Z.max 5 (n / 2))
         /\ (5 <= lookback -> lookback' = Z.max 5 (Z.min lookback (n / 2)))
         /\ (lookback < 5 -> lookback' = lookback)).
Proof.
  intros Hp _ entry exit lookback. split.
  - rewrite (adjust_parameters_items _ _ _ _ _ Hp).
    destruct (adjusted_donchian n items) as [Hentry Hexit].
    eexists _, _, _, _, _. split; [reflexivity |].
    split; [apply lookup_insert_eq |].
    split; [exact Hentry |]. split; [exact Hexit |].
    fold entry exit. repeat split; lia.
  - rewrite (adjust_parameters_items _ _ _ _ _ Hp).
    eexists _, _, _, _. split; [reflexivity |].
    split; [apply lookup_insert_eq |].
    split; [apply adjusted_momentum |].
    fold lookback. repeat split; lia.
Qed.

End Clamping.

(** C6 on a 100-bar series, with the requested [slow = 50] and [fast = 20]. *)
Lemma sma_cross_adjusted_order_witness :
  exists a s' adjusted slow fast,
    adjust_parameters "sma_cross" Sample.params 100
      (Sample.caller {[ "slow" := 50; "fast" := 20 ]}) = (Ok a, s')
    /\ heap s' !! a = Some adjusted
    /\ adjusted !! "slow" = Some slow
    /\ adjusted !! "fast" = Some fast
    /\ 3 <= slow /\ 2 <= fast /\ fast < slow.
Proof.
  apply (sma_cross_adjusted_order
           (Sample.caller {[ "slow" := 50; "fast" := 20 ]}) Sample.params
           {[ "slow" := 50; "fast" := 20 ]} 100); [reflexivity | lia].
Defined.

(** C2 as stated fails: on a 30-bar series a requested [entry_period] of 1
    is kept, where the stated formula gives [max(2, min(1, 10)) = 2]. *)
Lemma donchian_entry_floor_counterexample :
  exists a s' adjusted,
    adjust_parameters "donchian_breakout" Sample.params 30
      (Sample.caller {[ "entry_period" := 1 ]}) = (Ok a, s')
    /\ heap s' !! a = Some adjusted
    /\ adjusted !! "entry_period" = Some 1
    /\ 1 <> Z.max 2 (Z.min 1 (30 / 3)).
Proof.
  eexists _, _, _. split; [reflexivity |].
  split; [vm_compute; reflexivity |].
  split; [vm_compute; reflexivity | discriminate].
Qed.

(** The amended C2 on a 30-bar series with a requested [entry_period] of 1. *)
Lemma donchian_momentum_adjusted_witness :
  (exists a s' adjusted entry' exit',
      adjust_parameters "donchian_breakout" Sample.params 30
        (Sample.caller {[ "entry_period" := 1 ]}) = (Ok a, s')
      /\ heap s' !! a = Some adjusted
      /\ adjusted !! "entry_period" = Some entry'
      /\ adjusted !! "exit_period" = Some exit'
      /\ entry' = 1 /\ exit' = 7)
  /\ (exists a s' adjusted lookback',
         adjust_parameters "momentum" Sample.params 30
           (Sample.caller {[ "entry_period" := 1 ]}) = (Ok a, s')
         /\ heap s' !! a = Some adjusted
         /\ adjusted !! "lookback" = Some lookback'
         /\ lookback' = 15).
Proof.
  destruct (donchian_momentum_adjusted
              (Sample.caller {[ "entry_period" := 1 ]}) Sample.params
              {[ "entry_period" := 1 ]} 30)
    as [(a & s' & adj & e' & x' & H1 & H2 & H3 & H4 & H5 & H6 & _)
        (a2 & s2 & adj2 & l' & G1 & G2 & G3 & G4 & _)];
    [reflexivity | lia | ].
  split.
  - exists a, s', adj, e', x'.
    split; [exact H1 |]. split; [exact H2 |]. split; [exact H3 |].
    split; [exact H4 |]. split; [rewrite H5 | rewrite H6]; reflexivity.
  - exists a2, s2, adj2, l'.
    split; [exact G1 |]. split; [exact G2 |]. split; [exact G3 |].
    rewrite G4; reflexivity.
Defined.

(** ** The returned result *)

Lemma map_get_unknown strategy_type :
  strategy_type <> "sma_cross" ->
  strategy_type <> "donchian_breakout" ->
  strategy_type <> "momentum" ->
  map_get STRATEGY_MAP strategy_type = None.
Proof.
  intros H1 H2 H3. unfold STRATEGY_MAP. cbn [map_get].
  rewrite !(proj2 (String.eqb_neq _ _)); [reflexivity | | | ]; congruence.
Qed.

Section Results.
Context {World : Type}.
Variable cerebro_run : Bt.cerebro -> World -> result Bt.run_outcome * World.
Implicit Types (s : state World) (df : DataFrame) (o : Bt.run_outcome).

(** C1, as the code has it. For every run that completes the simulation,
    the [final_cash] of the returned result is the portfolio value of the
    broker: the cash plus the mark-to-market value (size times last price)
    of the position that is still open.  It is the pure cash exactly when
    that value is zero; and with a non-zero initial cash a result is
    returned. *)
Theorem final_cash_is_portfolio_value df strategy_type cls p items ic com s o w :
  valid_series df ->
  map_get STRATEGY_MAP strategy_type = Some cls ->
  heap s !! p = Some items ->
  cerebro_run (configured df strategy_type cls items ic com) (world s) = (Ok o, w) ->
  let b := Bt.broker_after o in
  (forall r s',
      run_backtest cerebro_run (Some df) strategy_type p ic com s = (Ok r, s') ->
      final_cash r = Bt.getvalue b
      /\ (final_cash r
          == Bt.getcash b + inject_Z (Bt.position_size b) * Bt.position_price b)%Q
      /\ ((final_cash r == Bt.getcash b)%Q
          <-> (inject_Z (Bt.position_size b) * Bt.position_price b == 0)%Q))
  /\ (~ (ic == 0)%Q ->
      exists r s', run_backtest cerebro_run (Some df) strategy_type p ic com s = (Ok r, s')).
Proof.
  intros Hv Hcls Hp Hrun b. split.
  - intros r s'. rewrite (run_backtest_accepted _ _ _ _ _ _ _ _ _ Hv Hcls Hp), Hrun.
    intros Hr. apply build_result_inv in Hr as (_ & Hfc & _). fold b in Hfc.
    rewrite Hfc. unfold Bt.getvalue, Bt.getcash.
    split; [reflexivity |]. split; [reflexivity |]. split; intros H; lra.
  - intros Hic.
    destruct (run_backtest_returns cerebro_run _ _ _ _ _ _ com s Hv Hcls Hp Hic)
      as (r & s' & Hr & _).
    by exists r, s'.
Qed.

(** C3. On an accepted input, an error raised by the run is caught and the
    call returns the degraded result: [final_cash = initial_cash],
    [total_return = 0], [sharpe = None], [max_drawdown = 0], no trades, no
    daily positions, [win_rate = 0], [avg_trade_return = 0].  The validation
    errors are raised to the caller whatever the engine would do: the empty
    series, the missing columns, fewer than 5 rows, the unknown variant. *)
Theorem simulation_errors_degrade_validation_errors_propagate
    (df : option DataFrame) strategy_type p ic com s :
  let call := run_backtest cerebro_run df strategy_type p ic com s in
  (df = None \/ (exists d, df = Some d /\ empty d = true) ->
   call = (Raise (ValueError "DataFrame is empty"), s))
  /\ (forall d,
         df = Some d -> empty d = false -> missing_columns d <> [] ->
         call = (Raise (ValueError ("Missing required columns: "
                                      ++ repr_list (missing_columns d))), s))
  /\ (forall d,
         df = Some d -> empty d = false -> missing_columns d = [] -> len d < 5 ->
         call = (Raise (ValueError "DataFrame must have at least 5 rows for backtest"), s))
  /\ (forall d items,
         df = Some d -> valid_series d -> heap s !! p = Some items ->
         strategy_type <> "sma_cross" ->
         strategy_type <> "donchian_breakout" ->
         strategy_type <> "momentum" ->
         fst call = Raise (ValueError ("Unknown strategy type: " ++ strategy_type))
         /\ world (snd call) = world s)
  /\ (forall d cls items e w,
         df = Some d -> valid_series d ->
         map_get STRATEGY_MAP strategy_type = Some cls ->
         heap s !! p = Some items ->
         cerebro_run (configured d strategy_type cls items ic com) (world s)
         = (Raise e, w) ->
         exists r,
           fst call = Ok r
           /\ final_cash r = ic /\ total_return r = 0%Q /\ sharpe r = None
           /\ max_drawdown r = 0%Q /\ trades r = [] /\ daily_positions r = []
           /\ win_rate r = 0%Q /\ avg_trade_return r = 0%Q).
Proof.
  intros call. unfold call. rewrite run_backtest_unfold.
  split; [| split; [| split; [| split]]].
  - intros [-> | (d & -> & ->)]; reflexivity.
  - intros d -> -> Hm. destruct (missing_columns d); [contradiction | reflexivity].
  - intros d -> -> -> Hl. apply Z.ltb_lt in Hl. by rewrite Hl.
  - intros d items -> (-> & -> & Hl) -> H1 H2 H3.
    rewrite (map_get_unknown _ H1 H2 H3).
    destruct (len d <? 5) eqn:E; [apply Z.ltb_lt in E; lia |]. by split.
  - intros d cls items e w -> (-> & -> & Hl) -> -> ->.
    destruct (len d <? 5) eqn:E; [apply Z.ltb_lt in E; lia |].
    exists (degraded_result ic). by repeat split.
Qed.

(** C4, as the code has it. With a non-zero initial cash, an accepted input
    (a valid series of at least 5 rows, a supported variant, any mapping)
    gives a result, degraded or not, whose [total_return] equals
    [(final_cash - initial_cash) / initial_cash]. *)
Theorem total_return_of_final_cash df strategy_type cls p items ic com s :
  valid_series df ->
  map_get STRATEGY_MAP strategy_type = Some cls ->
  heap s !! p = Some items ->
  ~ (ic == 0)%Q ->
  exists r s',
    run_backtest cerebro_run (Some df) strategy_type p ic com s = (Ok r, s')
    /\ truediv (final_cash r - ic)%Q ic = Ok ((final_cash r - ic) / ic)%Q
    /\ (total_return r == (final_cash r - ic) / ic)%Q.
Proof.
  intros Hv Hcls Hp Hic.
  destruct (run_backtest_returns cerebro_run _ _ _ _ _ _ com s Hv Hcls Hp Hic)
    as (r & s' & Hr & Hcase).
  exists r, s'. split; [exact Hr |]. split; [by apply truediv_nonzero |].
  destruct (fst (cerebro_run _ (world s))) as [o | e].
  - destruct (build_result_returns o ic s Hic) as (r' & Hr' & Hfc & Htr & _).
    rewrite Hr' in Hcase. injection Hcase as ->. rewrite Htr, Hfc. reflexivity.
  - subst r. simpl. field. exact Hic.
Qed.

End Results.

(** ** The metrics *)

Lemma float_eq_finite_refl q : float_eq (Finite q) (Finite q) = true.
Proof. simpl. apply Qeq_bool_iff. reflexivity. Qed.

(** Lines 134-136, by the value the analyzer reports. *)
Lemma extract_sharpe_cases analysis :
  extract_sharpe analysis
  = match analysis with
    | Raise _ => None
    | Ok d =>
        match d !! "sharperatio" with
        | Some (Some (Finite q)) => Some (Finite q)
        | _ => None
        end
    end.
Proof.
  destruct analysis as [d | e]; [| reflexivity]. unfold extract_sharpe.
  destruct (d !! "sharperatio") as [[[q | | |] |] |]; simpl; try reflexivity.
  unfold float_ne. by rewrite float_eq_finite_refl.
Qed.

Lemma extract_max_drawdown_nonpositive analysis :
  (extract_max_drawdown analysis <= 0)%Q.
Proof.
  destruct analysis as [d | e]; simpl; [| lra].
  set (v := default 0%Q (default ∅ (d !! "max") !! "drawdown")).
  destruct (Qlt_le_dec 0 v) as [Hpos | Hle];
    unfold Qdiv; change (/ 100)%Q with (1 # 100)%Q; lra.
Qed.

Lemma extract_max_drawdown_zero d v :
  default 0%Q (default ∅ (d !! "max") !! "drawdown") = v ->
  (v == 0)%Q ->
  (extract_max_drawdown (Ok d) == 0)%Q.
Proof.
  intros Hv Hz. simpl. rewrite Hv.
  destruct (Qlt_le_dec 0 v) as [Hpos | Hle];
    unfold Qdiv; change (/ 100)%Q with (1 # 100)%Q; lra.
Qed.

Module DrawDownFacts.
Import DrawDown.

Lemma py_max_zero a b : (a == 0)%Q -> (b == 0)%Q -> (py_max a b == 0)%Q.
Proof. intros Ha Hb. unfold py_max. by destruct (Qlt_le_dec a b). Qed.

Lemma nondecreasing_cons x rest :
  nondecreasing (x :: rest) = true ->
  nondecreasing rest = true
  /\ match rest with y :: _ => (x <= y)%Q | [] => True end.
Proof.
  destruct rest as [| y rest']; [by split |].
  cbn [nondecreasing]. intros H. apply andb_prop in H as [Hxy Hrest].
  split; [exact Hrest |]. by apply Qle_bool_iff.
Qed.

(** On a curve that never falls, no drawdown is recorded. *)
Lemma replay_nondecreasing values :
  forall st st',
    nondecreasing values = true ->
    below_next st values ->
    (max_drawdown_pct st == 0)%Q ->
    replay st values = Ok st' ->
    (max_drawdown_pct st' == 0)%Q.
Proof.
  induction values as [| value rest IH]; intros st st' Hmono Hbelow Hzero Hrun.
  - simpl in Hrun. by injection Hrun as <-.
  - apply nondecreasing_cons in Hmono as [Hrest Hnext].
    cbn [replay] in Hrun. unfold next in Hrun.
    set (peak := match maxvalue st with
                 | Some m => py_max m value
                 | None => value
                 end) in Hrun.
    assert (Hpeak : (peak == value)%Q).
    { unfold peak, below_next in *. destruct (maxvalue st) as [m |]; [| reflexivity].
      unfold py_max. destruct (Qlt_le_dec m value); [reflexivity | lra]. }
    unfold truediv in Hrun. destruct (Qeq_bool peak 0) eqn:E; [discriminate |].
    apply (IH _ st' Hrest) in Hrun; [exact Hrun | |].
    + unfold below_next; cbn. destruct rest as [| y rest']; [exact I | lra].
    + cbn. apply py_max_zero; [exact Hzero |].
      assert (Hmd : (100 * (peak - value) == 0)%Q) by lra.
      unfold Qdiv. rewrite Hmd. ring.
Qed.

Lemma analyze_nondecreasing values :
  nondecreasing values = true ->
  (extract_max_drawdown (analyze values) == 0)%Q.
Proof.
  intros Hmono. unfold analyze.
  destruct (replay create_analysis values) as [st | e] eqn:Hrun; [| reflexivity].
  apply (extract_max_drawdown_zero _ (max_drawdown_pct st)).
  - unfold get_analysis. rewrite lookup_singleton_eq. cbn [default id].
    by rewrite lookup_insert_eq.
  - apply (replay_nondecreasing values create_analysis st); done.
Qed.

End DrawDownFacts.

Section Metrics.
Context {World : Type}.
Variable cerebro_run : Bt.cerebro -> World -> result Bt.run_outcome * World.
Implicit Types (s : state World) (df : DataFrame) (o : Bt.run_outcome).

(** C7. Every result that is returned, the degraded one and the one built
    when reading the drawdown analysis fails included, has
    [max_drawdown <= 0]; and [max_drawdown] is 0 when the run completed on
    an equity curve that never falls, the analysis being the one the
    DrawDown analyzer computes over that curve. *)
Theorem max_drawdown_nonpositive_zero_when_rising
    (df : option DataFrame) strategy_type p ic com s r s' :
  run_backtest cerebro_run df strategy_type p ic com s = (Ok r, s') ->
  (max_drawdown r <= 0)%Q
  /\ (r = degraded_result ic -> max_drawdown r = 0%Q)
  /\ (forall o e,
         fst (build_result o ic s) = Ok r ->
         Bt.drawdown_analysis (Bt.results_0 o) = Raise e ->
         max_drawdown r = 0%Q)
  /\ (forall d cls items o w,
         df = Some d ->
         map_get STRATEGY_MAP strategy_type = Some cls ->
         heap s !! p = Some items ->
         cerebro_run (configured d strategy_type cls items ic com) (world s) = (Ok o, w) ->
         drawdown_reported o ->
         nondecreasing (Bt.equity_curve o) = true ->
         (max_drawdown r == 0)%Q).
Proof.
  intros Hcall.
  destruct (run_backtest_ok_inv _ _ _ _ _ _ _ _ _ Hcall)
    as (d & cls & items & -> & Hv & Hcls & Hp).
  pose proof Hcall as Hcall'.
  rewrite (run_backtest_accepted _ _ _ _ _ _ _ _ _ Hv Hcls Hp) in Hcall'.
  split; [| split; [| split]].
  - destruct (cerebro_run _ (world s)) as [[o | e] w].
    + apply build_result_inv in Hcall' as (_ & _ & _ & _ & ->).
      apply extract_max_drawdown_nonpositive.
    + injection Hcall' as <- _. simpl. lra.
  - by intros ->.
  - intros o e Ho Hfail. destruct (build_result o ic s) as [r0 s0] eqn:Hb.
    simpl in Ho. subst r0. apply build_result_inv in Hb as (_ & _ & _ & _ & ->).
    by rewrite Hfail.
  - intros d' cls' items' o w [= <-] Hcls' Hp' Hrun Hrep Hmono.
    rewrite Hcls in Hcls'. injection Hcls' as <-.
    rewrite Hp in Hp'. injection Hp' as <-.
    rewrite Hrun in Hcall'.
    apply build_result_inv in Hcall' as (_ & _ & _ & _ & ->).
    rewrite Hrep. by apply DrawDownFacts.analyze_nondecreasing.
Qed.

(** C8. For a run that completes (the initial cash being non-zero, so that
    a result is returned), the [sharpe] of the result is [None] when the
    analyzer's value is NaN, +Infinity or -Infinity, when it is missing or
    [None], and when reading the analysis raises; a finite value is passed
    through unchanged. *)
Theorem sharpe_none_unless_finite df strategy_type cls p items ic com s o w :
  valid_series df ->
  map_get STRATEGY_MAP strategy_type = Some cls ->
  heap s !! p = Some items ->
  cerebro_run (configured df strategy_type cls items ic com) (world s) = (Ok o, w) ->
  ~ (ic == 0)%Q ->
  exists r s',
    run_backtest cerebro_run (Some df) strategy_type p ic com s = (Ok r, s')
    /\ match Bt.sharpe_analysis (Bt.results_0 o) with
       | Raise _ => sharpe r = None
       | Ok analysis =>
           match analysis !! "sharperatio" with
           | Some (Some NaN) => sharpe r = None
           | Some (Some PosInf) => sharpe r = None
           | Some (Some NegInf) => sharpe r = None
           | Some (Some (Finite q)) => sharpe r = Some (Finite q)
           | Some None => sharpe r = None
           | None => sharpe r = None
           end
       end.
Proof.
  intros Hv Hcls Hp Hrun Hic.
  rewrite (run_backtest_accepted _ _ _ _ _ _ _ _ _ Hv Hcls Hp), Hrun.
  destruct (build_result_returns o ic (State (heap_after strategy_type df items s) w) Hic)
    as (r & Hr & _ & _ & Hsharpe & _).
  exists r, (State (heap_after strategy_type df items s) w). split; [exact Hr |].
  rewrite Hsharpe, extract_sharpe_cases.
  destruct (Bt.sharpe_analysis (Bt.results_0 o)) as [d | e]; [| reflexivity].
  destruct (d !! "sharperatio") as [[[q | | |] |] |]; reflexivity.
Qed.

(** The caller's mapping is looked up the same way before and after. *)
Lemma run_backtest_keeps_params (df : option DataFrame) strategy_type p ic com s :
  heap (snd (run_backtest cerebro_run df strategy_type p ic com s)) !! p = heap s !! p.
Proof.
  destruct (heap s !! p) as [items |] eqn:Hp.
  - rewrite <- Hp. apply run_backtest_frame. by rewrite Hp.
  - rewrite run_backtest_unfold.
    destruct df as [d |]; [| exact Hp].
    destruct (empty d); [exact Hp |].
    destruct (missing_columns d); [| exact Hp].
    destruct (len d <? 5); [exact Hp |].
    by rewrite Hp.
Qed.

(** C10. After any call, returning or raising, the caller's
    [strategy_params] holds the items it held before: the clamping writes
    to a copy, a dict object of its own. *)
Theorem caller_mapping_unchanged (df : option DataFrame) strategy_type p ic com s :
  let s' := snd (run_backtest cerebro_run df strategy_type p ic com s) in
  heap s' !! p = heap s !! p
  /\ (forall l, is_Some (heap s !! l) -> heap s' !! l = heap s !! l).
Proof.
  split.
  - apply run_backtest_keeps_params.
  - intros l Hl. by apply run_backtest_frame.
Qed.

End Metrics.

(** ** An initial cash of zero or less *)

(** On a curve that starts at zero the analyzer divides by a peak of zero. *)
Lemma analyze_from_zero value rest :
  (value == 0)%Q ->
  DrawDown.analyze (value :: rest) = Raise ZeroDivisionError.
Proof.
  intros Hz. unfold DrawDown.analyze. cbn [DrawDown.replay].
  unfold DrawDown.next, DrawDown.create_analysis; cbn [DrawDown.maxvalue].
  by rewrite (truediv_zero _ _ Hz).
Qed.

Section ZeroCash.
Context {World : Type}.
Variable cerebro_run : Bt.cerebro -> World -> result Bt.run_outcome * World.
Implicit Types (s : state World) (df : DataFrame).

(** With the DrawDown analyzer in the run, no run completes from an initial
    cash of zero on a series that has a bar. *)
Lemma no_run_completes_from_zero df strategy_type cls items ic com w o w' :
  drawdown_observed cerebro_run ->
  0 < len df ->
  (ic == 0)%Q ->
  cerebro_run (configured df strategy_type cls items ic com) w <> (Ok o, w').
Proof.
  intros Hobs Hlen Hz Hrun.
  destruct (Hobs _ _ _ _ Hrun) as (Hbars & Hfirst & analysis & Hanalysis).
  cbn in Hbars, Hfirst. unfold len in Hlen.
  destruct (Bt.equity_curve o) as [| value rest].
  - simpl in Hbars. lia.
  - rewrite analyze_from_zero in Hanalysis; [discriminate |].
    rewrite (Hfirst value rest eq_refl). exact Hz.
Qed.

(** C5. For every valid series of at least 5 rows and any supported variant,
    a call with an initial cash of zero or less returns a result and does
    not raise.  With an initial cash of zero the run cannot complete (the
    DrawDown analyzer divides by a peak of zero at the first bar), so the
    result is the degraded one: the initial cash, and no activity. *)
Theorem zero_or_negative_initial_cash_accepted
    df strategy_type cls p items ic com s :
  drawdown_observed cerebro_run ->
  valid_series df ->
  map_get STRATEGY_MAP strategy_type = Some cls ->
  heap s !! p = Some items ->
  (ic <= 0)%Q ->
  exists r s',
    run_backtest cerebro_run (Some df) strategy_type p ic com s = (Ok r, s')
    /\ ((ic == 0)%Q -> r = degraded_result ic).
Proof.
  intros Hobs Hv Hcls Hp Hle.
  destruct (Qeq_dec ic 0) as [Hz | Hnz].
  - rewrite (run_backtest_accepted _ _ _ _ _ _ _ _ _ Hv Hcls Hp).
    destruct (cerebro_run _ (world s)) as [[o | e] w] eqn:Hrun.
    + exfalso. destruct Hv as (_ & _ & Hlen).
      assert (Hbar : 0 < len df) by lia.
      apply (no_run_completes_from_zero _ _ _ _ _ _ _ _ _ Hobs Hbar Hz Hrun).
    + by eexists _, _.
  - destruct (run_backtest_returns cerebro_run _ _ _ _ _ _ com s Hv Hcls Hp Hnz)
      as (r & s' & Hr & _).
    exists r, s'. split; [exact Hr |]. intros Hz. contradiction.
Qed.

End ZeroCash.

(** The quiet engine is one the DrawDown analyzer takes part in. *)
Lemma quiet_observed : drawdown_observed Sample.quiet.
Proof.
  intros c w o w'. unfold Sample.quiet.
  destruct (DrawDown.analyze _) as [analysis | e] eqn:Hanalysis; [| discriminate].
  intros [= <- _]. cbn. split; [apply length_map |]. split; [| by exists analysis].
  intros value rest Hcurve. destruct (rows (Bt.data c)); [discriminate |].
  injection Hcurve as <- _. reflexivity.
Qed.

(** ** The statements on sample runs *)

Module Runs.
Import Sample.

(** C1 as stated fails: a run that ends with 40000 in cash and 100 shares
    marked at 600 reports a [final_cash] of 100000. *)
Lemma final_cash_pure_cash_counterexample :
  exists r s',
    run_backtest (completes long_outcome) (Some (series 5)) "sma_cross" params
      100000%Q com (caller ∅) = (Ok r, s')
    /\ Bt.position_size (Bt.broker_after long_outcome) <> 0
    /\ ~ (final_cash r == Bt.getcash (Bt.broker_after long_outcome))%Q
    /\ (final_cash r == 100000)%Q.
Proof.
  eexists _, _. split; [vm_compute; reflexivity |].
  split; [discriminate |]. split; [vm_compute; discriminate | reflexivity].
Qed.

(** The amended C1 on that run. *)
Lemma final_cash_is_portfolio_value_witness :
  exists r s',
    run_backtest (completes long_outcome) (Some (series 5)) "sma_cross" params
      100000%Q com (caller ∅) = (Ok r, s')
    /\ final_cash r = Bt.getvalue (Bt.broker_after long_outcome).
Proof.
  destruct (final_cash_is_portfolio_value (completes long_outcome) (series 5)
              "sma_cross" SMAStrategy params ∅ 100000%Q com (caller ∅)
              long_outcome tt)
    as [Hfield Hret].
  - repeat split; evaluate.
  - reflexivity.
  - reflexivity.
  - reflexivity.
  - destruct Hret as (r & s' & Hr); [evaluate |].
    exists r, s'. split; [exact Hr | apply (Hfield r s' Hr)].
Defined.

(** C3 on sample calls: no series, a series without [Volume], four rows,
    an unknown variant, and a run that raises. *)
Lemma simulation_errors_degrade_validation_errors_propagate_witness :
  run_backtest (completes flat_outcome) None "sma_cross" params 100000%Q com (caller ∅)
  = (Raise (ValueError "DataFrame is empty"), caller ∅)
  /\ run_backtest (completes flat_outcome) (Some (series_without_volume 5))
       "sma_cross" params 100000%Q com (caller ∅)
     = (Raise (ValueError "Missing required columns: ['Volume']"), caller ∅)
  /\ run_backtest (completes flat_outcome) (Some (series 4))
       "sma_cross" params 100000%Q com (caller ∅)
     = (Raise (ValueError "DataFrame must have at least 5 rows for backtest"), caller ∅)
  /\ fst (run_backtest (completes flat_outcome) (Some (series 5))
            "invalid_strategy" params 100000%Q com (caller ∅))
     = Raise (ValueError "Unknown strategy type: invalid_strategy")
  /\ (exists r,
         fst (run_backtest fails (Some (series 5)) "sma_cross" params 100000%Q com
                (caller ∅)) = Ok r
         /\ final_cash r = 100000%Q /\ total_return r = 0%Q /\ sharpe r = None
         /\ max_drawdown r = 0%Q /\ trades r = [] /\ daily_positions r = []
         /\ win_rate r = 0%Q /\ avg_trade_return r = 0%Q).
Proof.
  split; [| split; [| split; [| split]]].
  - apply (simulation_errors_degrade_validation_errors_propagate
             (completes flat_outcome) None "sma_cross" params 100000%Q com (caller ∅)).
    by left.
  - apply (proj1 (proj2 (simulation_errors_degrade_validation_errors_propagate
             (completes flat_outcome) (Some (series_without_volume 5))
             "sma_cross" params 100000%Q com (caller ∅)))
             (series_without_volume 5)); evaluate.
  - apply (proj1 (proj2 (proj2 (simulation_errors_degrade_validation_errors_propagate
             (completes flat_outcome) (Some (series 4))
             "sma_cross" params 100000%Q com (caller ∅))))
             (series 4)); evaluate.
  - apply (proj1 (proj2 (proj2 (proj2
             (simulation_errors_degrade_validation_errors_propagate
                (completes flat_outcome) (Some (series 5))
                "invalid_strategy" params 100000%Q com (caller ∅)))))
             (series 5) ∅); try evaluate; try discriminate.
    repeat split; evaluate.
  - apply (proj2 (proj2 (proj2 (proj2
             (simulation_errors_degrade_validation_errors_propagate
                fails (Some (series 5)) "sma_cross" params 100000%Q com (caller ∅)))))
             (series 5) SMAStrategy ∅
             (Exception "IndexError" "array index out of range") tt); try evaluate.
    repeat split; evaluate.
Defined.

(** C4 as stated fails: with an initial cash of 0 and a run that raises,
    the degraded result is returned with [total_return = 0], while
    [(final_cash - 0) / 0] has no value. *)
Lemma total_return_zero_cash_counterexample :
  exists r s',
    run_backtest fails (Some (series 5)) "sma_cross" params 0%Q com (caller ∅)
    = (Ok r, s')
    /\ truediv (final_cash r - 0)%Q 0%Q = Raise ZeroDivisionError
    /\ ~ (exists q, truediv (final_cash r - 0)%Q 0%Q = Ok q /\ (total_return r == q)%Q).
Proof.
  eexists _, _. split; [vm_compute; reflexivity |].
  split; [reflexivity |]. intros (q & Hq & _). discriminate.
Qed.

(** The amended C4 on a completed run from 50000. *)
Lemma total_return_of_final_cash_witness :
  exists r s',
    run_backtest (completes long_outcome) (Some (series 5)) "sma_cross" params
      50000%Q com (caller ∅) = (Ok r, s')
    /\ truediv (final_cash r - 50000)%Q 50000%Q
       = Ok ((final_cash r - 50000) / 50000)%Q
    /\ (total_return r == (final_cash r - 50000) / 50000)%Q.
Proof.
  apply (total_return_of_final_cash (completes long_outcome) (series 5)
           "sma_cross" SMAStrategy params ∅ 50000%Q com (caller ∅)).
  - repeat split; evaluate.
  - reflexivity.
  - reflexivity.
  - evaluate.
Defined.

(** C5 on the quiet engine, from an initial cash of 0. *)
Lemma zero_or_negative_initial_cash_accepted_witness :
  exists r s',
    run_backtest quiet (Some (series 5)) "sma_cross" params 0%Q com (caller ∅)
    = (Ok r, s')
    /\ r = degraded_result 0.
Proof.
  destruct (zero_or_negative_initial_cash_accepted quiet (series 5) "sma_cross"
              SMAStrategy params ∅ 0%Q com (caller ∅))
    as (r & s' & Hr & Hzero).
  - exact quiet_observed.
  - repeat split; evaluate.
  - reflexivity.
  - reflexivity.
  - evaluate.
  - exists r, s'. split; [exact Hr | apply Hzero; reflexivity].
Defined.

(** The quiet engine completes from an initial cash that is not zero. *)
Example quiet_completes_from_negative_cash :
  exists o,
    fst (quiet (configured (series 5) "sma_cross" SMAStrategy ∅ (-1000)%Q com) tt)
    = Ok o
    /\ Bt.equity_curve o = [(-1000)%Q; (-1000)%Q; (-1000)%Q; (-1000)%Q; (-1000)%Q].
Proof. eexists. split; vm_compute; reflexivity. Qed.

(** C7 on a run over the rising curve 100, 110, 120, 130, 140. *)
Lemma max_drawdown_nonpositive_zero_when_rising_witness :
  exists r s',
    run_backtest (completes rising_outcome) (Some (series 5)) "sma_cross" params
      100%Q com (caller ∅) = (Ok r, s')
    /\ (max_drawdown r <= 0)%Q
    /\ (max_drawdown r == 0)%Q.
Proof.
  assert (Hcall : exists r s',
             run_backtest (completes rising_outcome) (Some (series 5)) "sma_cross"
               params 100%Q com (caller ∅) = (Ok r, s'))
    by (eexists _, _; vm_compute; reflexivity).
  destruct Hcall as (r & s' & Hcall).
  destruct (max_drawdown_nonpositive_zero_when_rising _ _ _ _ _ _ _ _ _ Hcall)
    as (Hle & _ & _ & Hzero).
  exists r, s'. split; [exact Hcall |]. split; [exact Hle |].
  apply (Hzero (series 5) SMAStrategy ∅ rising_outcome tt); reflexivity.
Defined.

(** C8 on a run whose Sharpe ratio is 3/2. *)
Lemma sharpe_none_unless_finite_witness :
  exists r s',
    run_backtest (completes rising_outcome) (Some (series 5)) "sma_cross" params
      100%Q com (caller ∅) = (Ok r, s')
    /\ sharpe r = Some (Finite (3 # 2)).
Proof.
  destruct (sharpe_none_unless_finite (completes rising_outcome) (series 5)
              "sma_cross" SMAStrategy params ∅ 100%Q com (caller ∅)
              rising_outcome tt)
    as (r & s' & Hr & Hsharpe).
  - repeat split; evaluate.
  - reflexivity.
  - reflexivity.
  - reflexivity.
  - evaluate.
  - exists r, s'. split; [exact Hr | exact Hsharpe].
Defined.

(** C10 on a 100-bar series: the copy gets [slow = 33] and [fast = 20], the
    caller's mapping keeps [slow = 50]. *)
Lemma caller_mapping_unchanged_witness :
  heap (snd (run_backtest (completes flat_outcome) (Some (series 100)) "sma_cross"
               params 100000%Q com (caller {[ "slow" := 50; "fast" := 20 ]})))
    !! params
  = Some {[ "slow" := 50; "fast" := 20 ]}.
Proof.
  pose proof (caller_mapping_unchanged (completes flat_outcome) (Some (series 100))
                "sma_cross" params 100000%Q com
                (caller {[ "slow" := 50; "fast" := 20 ]})) as H.
  cbv zeta in H. destruct H as [_ Hframe].
  rewrite (Hframe params); [reflexivity | eexists; reflexivity].
Defined.

End Runs.

(** ** Further properties: the validation *)

Lemma has_column_In df col : has_column df col = true <-> In col (columns df).
Proof.
  unfold has_column. rewrite existsb_exists. split.
  - intros (x & Hx & Heq). apply String.eqb_eq in Heq. by subst.
  - intros H. exists col. split; [exact H | apply String.eqb_refl].
Qed.

Lemma filter_sublist {A} (f : A -> bool) (l : list A) :
  sublist (List.filter f l) l.
Proof.
  induction l as [| x l IH]; simpl; [constructor |].
  destruct (f x); by constructor.
Qed.

Lemma filter_none {A} (f : A -> bool) (l : list A) :
  (forall x, In x l -> f x = false) -> List.filter f l = [].
Proof.
  induction l as [| x l IH]; intros Hall; [reflexivity |].
  simpl. rewrite (Hall x) by (simpl; tauto).
  apply IH. intros y Hy. apply Hall. simpl; tauto.
Qed.

(** X1. The columns reported as missing are the required columns that the
    frame lacks, once each, in the order Open, High, Low, Close, Volume. *)
Theorem missing_columns_exactly df :
  (forall col,
      In col (missing_columns df)
      <-> In col required_columns /\ ~ In col (columns df))
  /\ sublist (missing_columns df) required_columns
  /\ NoDup (missing_columns df).
Proof.
  split; [| split].
  - intros col. unfold missing_columns. rewrite filter_In.
    rewrite <- has_column_In. destruct (has_column df col); simpl; intuition congruence.
  - apply filter_sublist.
  - eapply sublist_NoDup; [| apply filter_sublist].
    apply (bool_decide_unpack _). vm_compute. exact I.
Qed.

(** X2. A frame passes the validation exactly when it has every required
    column, in any order and among any others, and at least 5 rows; the
    test for an empty frame rejects nothing that these two would accept. *)
Theorem valid_series_iff df :
  valid_series df
  <-> (forall col, In col required_columns -> In col (columns df)) /\ 5 <= len df.
Proof.
  unfold valid_series. split.
  - intros (_ & Hmiss & Hlen). split; [| exact Hlen].
    intros col Hreq. apply has_column_In.
    destruct (has_column df col) eqn:E; [reflexivity |].
    assert (Hin : In col (missing_columns df)).
    { unfold missing_columns. apply filter_In. by rewrite E. }
    rewrite Hmiss in Hin. destruct Hin.
  - intros [Hcols Hlen]. split; [| split; [| exact Hlen]].
    + unfold empty, len in *.
      assert (Hopen : In "Open" (columns df)) by (apply Hcols; simpl; tauto).
      destruct (columns df); [destruct Hopen |].
      destruct (rows df); [simpl in Hlen; lia | reflexivity].
    + unfold missing_columns. apply filter_none.
      intros col Hreq. apply negb_false_iff, has_column_In, Hcols, Hreq.
Qed.

(** ** Further properties: the clamping *)

Section ClampingMore.
Context {World : Type}.
Implicit Types (s : state World) (items adjusted : gmap string Z).

Lemma adjusts_to_items strategy_type p n s items :
  heap s !! p = Some items ->
  adjusts_to strategy_type p n s (adjusted_items strategy_type n items).
Proof.
  intros Hp. unfold adjusts_to. rewrite (adjust_parameters_items _ _ _ _ _ Hp).
  eexists _, _. split; [reflexivity |]. split; [| apply lookup_insert_eq].
  intros Heq. rewrite <- Heq, fresh_not_allocated in Hp. discriminate.
Qed.

Lemma adjusts_to_inv strategy_type p n s items adjusted :
  heap s !! p = Some items ->
  adjusts_to strategy_type p n s adjusted ->
  adjusted = adjusted_items strategy_type n items.
Proof.
  intros Hp (a & s' & Hrun & _ & Ha).
  rewrite (adjust_parameters_items _ _ _ _ _ Hp) in Hrun.
  injection Hrun as <- <-. simpl in Ha. rewrite lookup_insert_eq in Ha. congruence.
Qed.

End ClampingMore.

(** Splits on the variant, as the clamping does. *)
Ltac by_variant strategy_type :=
  unfold adjusted_items, clamped_keys in *;
  destruct (String.eqb strategy_type "sma_cross");
  [| destruct (String.eqb strategy_type "donchian_breakout");
     [| destruct (String.eqb strategy_type "momentum")]].

(** Splits on the key of a list of keys. *)
Ltac by_key H :=
  simpl in H;
  repeat match type of H with
         | _ \/ _ => destruct H as [<- | H]
         | False => destruct H
         end.

(** Looks a key up through the inserts of the clamping. *)
Ltac through_inserts :=
  repeat first [ rewrite lookup_insert_eq | rewrite lookup_insert_ne by done ].

(** The values stored under the clamped keys. *)
Lemma clamped_key_present strategy_type n items key :
  In key (clamped_keys strategy_type) ->
  is_Some (adjusted_items strategy_type n items !! key).
Proof.
  intros Hkey. by_variant strategy_type; by_key Hkey; through_inserts; eauto.
Qed.

Lemma clamped_key_fits strategy_type n items key v :
  5 <= n ->
  In key (clamped_keys strategy_type) ->
  adjusted_items strategy_type n items !! key = Some v ->
  v <= n.
Proof.
  intros Hn Hkey.
  assert (H3 : n / 3 <= n) by (apply Z.div_le_upper_bound; lia).
  assert (H4 : n / 4 <= n) by (apply Z.div_le_upper_bound; lia).
  assert (H2 : n / 2 <= n) by (apply Z.div_le_upper_bound; lia).
  by_variant strategy_type; by_key Hkey; through_inserts;
    intros [= <-]; lia.
Qed.

Lemma clamped_key_monotone strategy_type n n' items key v v' :
  0 <= n -> n <= n' ->
  In key (clamped_keys strategy_type) ->
  adjusted_items strategy_type n items !! key = Some v ->
  adjusted_items strategy_type n' items !! key = Some v' ->
  v <= v'.
Proof.
  intros Hn Hle Hkey.
  assert (H3 : n / 3 <= n' / 3) by (apply Z.div_le_mono; lia).
  assert (H4 : n / 4 <= n' / 4) by (apply Z.div_le_mono; lia).
  assert (H2 : n / 2 <= n' / 2) by (apply Z.div_le_mono; lia).
  by_variant strategy_type; by_key Hkey; through_inserts;
    intros [= <-] [= <-]; lia.
Qed.

Lemma other_key_kept strategy_type n items key :
  ~ In key (clamped_keys strategy_type) ->
  adjusted_items strategy_type n items !! key = items !! key.
Proof.
  intros Hkey. by_variant strategy_type; simpl in Hkey;
    repeat (rewrite lookup_insert_ne by (intros <-; apply Hkey; tauto));
    reflexivity.
Qed.

Lemma adjusted_items_idempotent strategy_type n items :
  adjusted_items strategy_type n (adjusted_items strategy_type n items)
  = adjusted_items strategy_type n items.
Proof.
  apply map_eq. intros key.
  destruct (in_dec string_dec key (clamped_keys strategy_type)) as [Hkey | Hkey].
  - by_variant strategy_type; by_key Hkey; through_inserts; cbn [default];
      unfold id; f_equal; lia.
  - by rewrite !other_key_kept.
Qed.

Section ClampingTheorems.
Context {World : Type}.
Implicit Types (s : state World) (items adjusted : gmap string Z).

(** X3. For a series of at least 5 rows, every parameter the clamping of a
    variant writes (slow, fast, entry_period, exit_period, lookback,
    atr_period) is present in the adjusted dict with a value that is at
    most the number of rows, whatever was requested. *)
Theorem adjusted_periods_fit_the_data strategy_type p n s items :
  heap s !! p = Some items ->
  5 <= n ->
  exists adjusted,
    adjusts_to strategy_type p n s adjusted
    /\ forall key,
         In key (clamped_keys strategy_type) ->
         exists v, adjusted !! key = Some v /\ v <= n.
Proof.
  intros Hp Hn. exists (adjusted_items strategy_type n items).
  split; [by apply adjusts_to_items |].
  intros key Hkey. destruct (clamped_key_present strategy_type n items key Hkey) as [v Hv].
  exists v. split; [exact Hv |]. by apply (clamped_key_fits strategy_type n items key).
Qed.

(** X4. For each of the three variants the adjusted [atr_period] is
    [min(requested default 14, max(2, n // 4))]: never above the requested
    value, and equal to it, zero or negative included, when it is at most 2. *)
Theorem atr_period_clamped strategy_type p n s items :
  heap s !! p = Some items ->
  In strategy_type ["sma_cross"; "donchian_breakout"; "momentum"] ->
  let requested := default 14 (items !! "atr_period") in
  exists adjusted atr,
    adjusts_to strategy_type p n s adjusted
    /\ adjusted !! "atr_period" = Some atr
    /\ atr = Z.min requested (Z.max 2 (n / 4))
    /\ atr <= requested
    /\ (requested <= 2 -> atr = requested).
Proof.
  intros Hp Hvariant requested.
  exists (adjusted_items strategy_type n items), (Z.min requested (Z.max 2 (n / 4))).
  split; [by apply adjusts_to_items |].
  split; [| split; [reflexivity | lia]].
  by_key Hvariant; unfold adjusted_items; simpl; by through_inserts.
Qed.

(** X5. Requested parameters that already fit are copied as they are: for
    SmaCross when [3 <= slow <= n // 3], [2 <= fast < slow] and
    [atr_period <= max(2, n // 4)]; for DonchianBreakout when
    [entry_period <= max(2, n // 3)] and [exit_period], [atr_period]
    [<= max(2, n // 4)]; for Momentum when [lookback <= max(5, n // 2)] and
    [atr_period <= max(2, n // 4)]. *)
Theorem fitting_parameters_unchanged p n s items atr :
  heap s !! p = Some items ->
  items !! "atr_period" = Some atr ->
  atr <= Z.max 2 (n / 4) ->
  (forall slow fast,
      items !! "slow" = Some slow -> items !! "fast" = Some fast ->
      3 <= slow <= n / 3 -> 2 <= fast < slow ->
      adjusts_to "sma_cross" p n s items)
  /\ (forall entry exit,
         items !! "entry_period" = Some entry -> items !! "exit_period" = Some exit ->
         entry <= Z.max 2 (n / 3) -> exit <= Z.max 2 (n / 4) ->
         adjusts_to "donchian_breakout" p n s items)
  /\ (forall lookback,
         items !! "lookback" = Some lookback ->
         lookback <= Z.max 5 (n / 2) ->
         adjusts_to "momentum" p n s items).
Proof.
  intros Hp Hatr Hatr_le.
  assert (Hkeep : forall strategy_type,
             adjusted_items strategy_type n items = items ->
             adjusts_to strategy_type p n s items).
  { intros st Heq. pose proof (adjusts_to_items st p n s items Hp) as H.
    by rewrite Heq in H. }
  split; [| split].
  - intros slow fast Hslow Hfast Hs Hf. apply Hkeep.
    unfold adjusted_items; simpl. rewrite Hslow, Hfast, Hatr. cbn [default].
    rewrite !insert_id; try done; through_inserts; unfold id;
      (etrans; [eassumption | f_equal; lia]).
  - intros entry exit Hentry Hexit He Hx. apply Hkeep.
    unfold adjusted_items; simpl. rewrite Hentry, Hexit, Hatr. cbn [default].
    rewrite !insert_id; try done; through_inserts; unfold id;
      (etrans; [eassumption | f_equal; lia]).
  - intros lookback Hlook Hl. apply Hkeep.
    unfold adjusted_items; simpl. rewrite Hlook, Hatr. cbn [default].
    rewrite !insert_id; try done; through_inserts; unfold id;
      (etrans; [eassumption | f_equal; lia]).
Qed.

(** X6. Clamping is idempotent: clamping the adjusted parameters again, for
    the same variant and the same number of rows, gives a dict with the
    very same items. *)
Theorem clamping_idempotent strategy_type p n s items :
  heap s !! p = Some items ->
  exists adjusted,
    adjusts_to strategy_type p n s adjusted
    /\ forall (s2 : state World) p2,
         heap s2 !! p2 = Some adjusted ->
         adjusts_to strategy_type p2 n s2 adjusted.
Proof.
  intros Hp. exists (adjusted_items strategy_type n items).
  split; [by apply adjusts_to_items |].
  intros s2 p2 Hp2. pose proof (adjusts_to_items strategy_type p2 n s2 _ Hp2) as H.
  by rewrite adjusted_items_idempotent in H.
Qed.

(** X7. The clamping touches no other key: every item of the caller's
    mapping whose key is not one the variant clamps reaches the adjusted
    dict unchanged, and for an unknown variant the adjusted dict holds the
    caller's items as they are. *)
Theorem other_parameters_pass_through strategy_type p n s items :
  heap s !! p = Some items ->
  exists adjusted,
    adjusts_to strategy_type p n s adjusted
    /\ (forall key,
           ~ In key (clamped_keys strategy_type) -> adjusted !! key = items !! key)
    /\ (map_get STRATEGY_MAP strategy_type = None -> adjusted = items).
Proof.
  intros Hp. exists (adjusted_items strategy_type n items).
  split; [by apply adjusts_to_items |]. split.
  - intros key Hkey. by apply other_key_kept.
  - unfold STRATEGY_MAP, adjusted_items. cbn [map_get].
    rewrite !(String.eqb_sym _ strategy_type).
    destruct (String.eqb strategy_type "sma_cross"); [discriminate |].
    destruct (String.eqb strategy_type "donchian_breakout"); [discriminate |].
    destruct (String.eqb strategy_type "momentum"); [discriminate | reflexivity].
Qed.

(** X8. More data never shortens a period: for the same requested mapping
    and variant, each clamped parameter on [n' >= n] rows is at least what
    it is on [n] rows. *)
Theorem clamping_monotone_in_rows strategy_type p n n' s items :
  heap s !! p = Some items ->
  0 <= n -> n <= n' ->
  exists adjusted adjusted',
    adjusts_to strategy_type p n s adjusted
    /\ adjusts_to strategy_type p n' s adjusted'
    /\ forall key,
         In key (clamped_keys strategy_type) ->
         exists v v',
           adjusted !! key = Some v /\ adjusted' !! key = Some v' /\ v <= v'.
Proof.
  intros Hp Hn Hle.
  exists (adjusted_items strategy_type n items), (adjusted_items strategy_type n' items).
  split; [by apply adjusts_to_items |]. split; [by apply adjusts_to_items |].
  intros key Hkey.
  destruct (clamped_key_present strategy_type n items key Hkey) as [v Hv].
  destruct (clamped_key_present strategy_type n' items key Hkey) as [v' Hv'].
  exists v, v'. split; [exact Hv |]. split; [exact Hv' |].
  by apply (clamped_key_monotone strategy_type n n' items key).
Qed.

End ClampingTheorems.

(** ** Further properties: the result of a completed run *)

Lemma truthy_false_empty {V} (d : gmap string V) : truthy d = false -> d = ∅.
Proof.
  unfold truthy. intros H. apply negb_false_iff, Nat.eqb_eq in H.
  by apply map_size_empty_iff.
Qed.

Lemma truthy_lookup {V} (d : gmap string V) key v : d !! key = Some v -> truthy d = true.
Proof.
  intros Hv. destruct (truthy d) eqn:E; [reflexivity |].
  apply truthy_false_empty in E. subst d. by rewrite lookup_empty in Hv.
Qed.

(** Lines 160-161 read the count under ['total'], 0 when it is not there. *)
Lemma count_of_nested sub : count_of sub = nested_get sub "total" 0.
Proof.
  unfold count_of, nested_get. destruct sub as [d |]; [| reflexivity]. simpl.
  destruct (truthy d) eqn:E; [reflexivity |].
  apply truthy_false_empty in E. subst d. by rewrite lookup_empty.
Qed.

(** Lines 164-170 read the average under ['pnl']['gross'], 0 when it is
    not there. *)
Lemma avg_trade_return_nested ta :
  (extract_avg_trade_return ta
   == nested_get (Bt.pnl_dict ta ≫= (fun pnl => pnl !! "gross")) "average" 0)%Q.
Proof.
  unfold extract_avg_trade_return, nested_get.
  destruct (Bt.pnl_dict ta) as [pnl |]; simpl.
  - destruct (pnl !! "gross") as [gross |] eqn:Hg; simpl; [| reflexivity].
    rewrite (truthy_lookup _ _ _ Hg). simpl.
    destruct (truthy gross) eqn:E.
    + destruct (Qeq_bool (default 0%Q (gross !! "average")) 0) eqn:Hz; [| reflexivity].
      apply Qeq_bool_iff in Hz. by rewrite Hz.
    + apply truthy_false_empty in E. subst gross. by rewrite lookup_empty.
  - rewrite lookup_empty. reflexivity.
Qed.

Section Completed.
Context {World : Type}.
Implicit Types (s : state World) (df : DataFrame) (o : Bt.run_outcome).
Implicit Types cerebro_run : Bt.cerebro -> World -> result Bt.run_outcome * World.

(** The result of a completed run, field by field. *)
Lemma completed_run_result cerebro_run df strategy_type p ic com s o :
  completes_with cerebro_run df strategy_type p ic com s o ->
  ~ (ic == 0)%Q ->
  exists s',
    run_backtest cerebro_run (Some df) strategy_type p ic com s
    = (Ok {| final_cash := Bt.getvalue (Bt.broker_after o);
             total_return := ((Bt.getvalue (Bt.broker_after o) - ic) / ic)%Q;
             sharpe := extract_sharpe (Bt.sharpe_analysis (Bt.results_0 o));
             max_drawdown :=
               extract_max_drawdown (Bt.drawdown_analysis (Bt.results_0 o));
             trades := default [] (Bt.trades_list (Bt.results_0 o));
             daily_positions := default [] (Bt.daily_positions_attr (Bt.results_0 o));
             win_rate :=
               compute_win_rate
                 (count_of (Bt.won (extract_trades_analysis
                                      (Bt.trades_analysis (Bt.results_0 o)))))
                 (count_of (Bt.total (extract_trades_analysis
                                        (Bt.trades_analysis (Bt.results_0 o)))));
             avg_trade_return :=
               extract_avg_trade_return
                 (extract_trades_analysis (Bt.trades_analysis (Bt.results_0 o))) |},
       s').
Proof.
  intros (cls & items & w & Hv & Hcls & Hp & Hrun) Hic.
  rewrite (run_backtest_accepted _ _ _ _ _ _ _ _ _ Hv Hcls Hp), Hrun.
  unfold build_result. rewrite (truediv_nonzero _ _ Hic). by eexists.
Qed.

(** X9. The engine is consulted once, on the configuration built from the
    series, the class of the variant, the adjusted parameters, the initial
    cash and the commission: two engines that agree on that one run give
    the same call, result and final state. *)
Theorem engine_consulted_on_configuration
    cerebro_run cerebro_run' df strategy_type cls p items ic com s :
  valid_series df ->
  map_get STRATEGY_MAP strategy_type = Some cls ->
  heap s !! p = Some items ->
  cerebro_run (configured df strategy_type cls items ic com) (world s)
  = cerebro_run' (configured df strategy_type cls items ic com) (world s) ->
  run_backtest cerebro_run (Some df) strategy_type p ic com s
  = run_backtest cerebro_run' (Some df) strategy_type p ic com s
  /\ world (snd (run_backtest cerebro_run (Some df) strategy_type p ic com s))
     = snd (cerebro_run (configured df strategy_type cls items ic com) (world s)).
Proof.
  intros Hv Hcls Hp Hsame.
  rewrite !(run_backtest_accepted _ _ _ _ _ _ _ _ _ Hv Hcls Hp), <- Hsame.
  split; [reflexivity |].
  destruct (cerebro_run _ (world s)) as [[o | e] w]; [| reflexivity].
  by rewrite build_result_pure.
Qed.

(** X10. A failing analyzer degrades its own metric only: when the Sharpe,
    drawdown and trade analyses all raise, the completed run still returns
    a result, with the portfolio value, the total return and the recorded
    trades and positions, and with [sharpe = None], [max_drawdown = 0],
    [win_rate = 0] and [avg_trade_return = 0]. *)
Theorem failing_analyzers_degrade_locally
    cerebro_run df strategy_type p ic com s o e1 e2 e3 :
  completes_with cerebro_run df strategy_type p ic com s o ->
  ~ (ic == 0)%Q ->
  Bt.sharpe_analysis (Bt.results_0 o) = Raise e1 ->
  Bt.drawdown_analysis (Bt.results_0 o) = Raise e2 ->
  Bt.trades_analysis (Bt.results_0 o) = Raise e3 ->
  exists r s',
    run_backtest cerebro_run (Some df) strategy_type p ic com s = (Ok r, s')
    /\ final_cash r = Bt.getvalue (Bt.broker_after o)
    /\ total_return r = ((Bt.getvalue (Bt.broker_after o) - ic) / ic)%Q
    /\ trades r = default [] (Bt.trades_list (Bt.results_0 o))
    /\ daily_positions r = default [] (Bt.daily_positions_attr (Bt.results_0 o))
    /\ sharpe r = None /\ max_drawdown r = 0%Q
    /\ win_rate r = 0%Q /\ avg_trade_return r = 0%Q.
Proof.
  intros Hrun Hic H1 H2 H3.
  destruct (completed_run_result _ _ _ _ _ _ _ _ Hrun Hic) as (s' & Hr).
  eexists _, s'. split; [exact Hr |]. cbn. rewrite H1, H2, H3. by repeat split.
Qed.

(** X11. The win rate is [won / total] of the trade analysis when [total]
    is positive and 0 otherwise, a missing or empty analysis included; it
    lies between 0 and 1 whenever [0 <= won <= total]. *)
Theorem win_rate_of_trade_counts cerebro_run df strategy_type p ic com s o :
  completes_with cerebro_run df strategy_type p ic com s o ->
  ~ (ic == 0)%Q ->
  let ta := extract_trades_analysis (Bt.trades_analysis (Bt.results_0 o)) in
  let total := nested_get (Bt.total ta) "total" 0 in
  let won := nested_get (Bt.won ta) "total" 0 in
  exists r s',
    run_backtest cerebro_run (Some df) strategy_type p ic com s = (Ok r, s')
    /\ (total <= 0 -> win_rate r = 0%Q)
    /\ (0 < total -> (win_rate r == inject_Z won / inject_Z total)%Q)
    /\ (0 <= won <= total -> (0 <= win_rate r <= 1)%Q).
Proof.
  intros Hrun Hic ta total won.
  destruct (completed_run_result _ _ _ _ _ _ _ _ Hrun Hic) as (s' & Hr).
  eexists _, s'. split; [exact Hr |]. cbn. fold ta.
  rewrite !count_of_nested. fold total won. unfold compute_win_rate.
  assert (Hdiv : 0 < total ->
                 (0 <= won <= total ->
                  (0 <= inject_Z won / inject_Z total <= 1)%Q)).
  { intros Hpos [H0 H1].
    assert (Ht : (0 < inject_Z total)%Q)
      by (change 0%Q with (inject_Z 0); by rewrite <- Zlt_Qlt).
    split.
    - apply Qle_shift_div_l; [exact Ht |]. rewrite Qmult_0_l.
      change 0%Q with (inject_Z 0). by rewrite <- Zle_Qle.
    - apply Qle_shift_div_r; [exact Ht |]. rewrite Qmult_1_l. by rewrite <- Zle_Qle. }
  destruct (0 <? total) eqn:E.
  - apply Z.ltb_lt in E. rewrite Z.max_l by lia.
    split; [lia |]. split; [reflexivity |]. by apply Hdiv.
  - apply Z.ltb_ge in E. split; [reflexivity |]. split; [lia |].
    intros _. split; discriminate.
Qed.

(** X12. The average trade return is the [average] the trade analysis
    holds under [pnl], [gross], and 0 when any of the three levels is
    missing or the analysis raised. *)
Theorem avg_trade_return_of_gross_average
    cerebro_run df strategy_type p ic com s o :
  completes_with cerebro_run df strategy_type p ic com s o ->
  ~ (ic == 0)%Q ->
  let ta := extract_trades_analysis (Bt.trades_analysis (Bt.results_0 o)) in
  exists r s',
    run_backtest cerebro_run (Some df) strategy_type p ic com s = (Ok r, s')
    /\ (avg_trade_return r
        == nested_get (Bt.pnl_dict ta ≫= (fun pnl => pnl !! "gross")) "average" 0)%Q.
Proof.
  intros Hrun Hic ta.
  destruct (completed_run_result _ _ _ _ _ _ _ _ Hrun Hic) as (s' & Hr).
  eexists _, s'. split; [exact Hr |]. cbn. apply avg_trade_return_nested.
Qed.

(** X13. The maximum drawdown is minus the magnitude of the analyzer's
    percentage, divided by 100: a percentage reported with either sign
    gives the same non-positive fraction. *)
Theorem max_drawdown_of_percentage cerebro_run df strategy_type p ic com s o d :
  completes_with cerebro_run df strategy_type p ic com s o ->
  ~ (ic == 0)%Q ->
  Bt.drawdown_analysis (Bt.results_0 o) = Ok d ->
  let percentage := default 0%Q (default ∅ (d !! "max") !! "drawdown") in
  exists r s',
    run_backtest cerebro_run (Some df) strategy_type p ic com s = (Ok r, s')
    /\ (max_drawdown r == - Qabs percentage / 100)%Q.
Proof.
  intros Hrun Hic Hd percentage.
  destruct (completed_run_result _ _ _ _ _ _ _ _ Hrun Hic) as (s' & Hr).
  eexists _, s'. split; [exact Hr |]. cbn. rewrite Hd. simpl. fold percentage.
  destruct (Qlt_le_dec 0 percentage) as [Hpos | Hle].
  - rewrite (Qabs_pos percentage) by lra. reflexivity.
  - rewrite (Qabs_neg percentage Hle).
    unfold Qdiv; change (/ 100)%Q with (1 # 100)%Q; lra.
Qed.

End Completed.

(** ** Further properties: every returned result *)

Section Returned.
Context {World : Type}.
Variable cerebro_run : Bt.cerebro -> World -> result Bt.run_outcome * World.
Implicit Types (s : state World) (df : DataFrame) (o : Bt.run_outcome).

(** The total return of what is returned, degraded or not. *)
Lemma returned_total_return df strategy_type cls p items ic com s :
  valid_series df ->
  map_get STRATEGY_MAP strategy_type = Some cls ->
  heap s !! p = Some items ->
  ~ (ic == 0)%Q ->
  exists r s',
    run_backtest cerebro_run (Some df) strategy_type p ic com s = (Ok r, s')
    /\ (total_return r * ic == final_cash r - ic)%Q.
Proof.
  intros Hv Hcls Hp Hic.
  destruct (run_backtest_returns cerebro_run _ _ _ _ _ _ com s Hv Hcls Hp Hic)
    as (r & s' & Hr & Hcase).
  exists r, s'. split; [exact Hr |].
  destruct (fst (cerebro_run _ (world s))) as [o | e].
  - destruct (build_result_returns o ic s Hic) as (r' & Hr' & Hfc & Htr & _).
    rewrite Hr' in Hcase. injection Hcase as ->. rewrite Htr, Hfc. by field.
  - subst r. simpl. ring.
Qed.

(** X14. On an accepted input with a non-zero initial cash, the total
    return is zero exactly when the final value equals the initial cash;
    with a positive initial cash it is positive exactly when the final
    value is above it, and with a negative initial cash the sign is
    reversed: it is positive exactly when the final value is below it. *)
Theorem total_return_sign df strategy_type cls p items ic com s :
  valid_series df ->
  map_get STRATEGY_MAP strategy_type = Some cls ->
  heap s !! p = Some items ->
  ~ (ic == 0)%Q ->
  exists r s',
    run_backtest cerebro_run (Some df) strategy_type p ic com s = (Ok r, s')
    /\ ((total_return r == 0)%Q <-> (final_cash r == ic)%Q)
    /\ ((0 < ic)%Q -> ((0 < total_return r)%Q <-> (ic < final_cash r)%Q))
    /\ ((ic < 0)%Q -> ((0 < total_return r)%Q <-> (final_cash r < ic)%Q)).
Proof.
  intros Hv Hcls Hp Hic.
  destruct (returned_total_return _ _ _ _ _ _ com s Hv Hcls Hp Hic)
    as (r & s' & Hr & Htr).
  exists r, s'. split; [exact Hr |].
  set (t := total_return r) in *. set (f := final_cash r) in *.
  split; [| split].
  - split; intros H.
    + rewrite H in Htr. lra.
    + assert (Hz : (t * ic == 0)%Q) by lra.
      apply Qmult_integral in Hz as [Hz | Hz]; [exact Hz | contradiction].
  - intros Hpos. split; intros H.
    + assert (0 < t * ic)%Q by (apply Qmult_lt_0_compat; assumption). lra.
    + destruct (Qlt_le_dec 0 t) as [Ht | Ht]; [exact Ht |].
      assert (0 <= (- t) * ic)%Q by (apply Qmult_le_0_compat; lra).
      assert ((- t) * ic == - (t * ic))%Q by ring. lra.
  - intros Hneg. split; intros H.
    + assert (0 < t * (- ic))%Q by (apply Qmult_lt_0_compat; lra).
      assert (t * (- ic) == - (t * ic))%Q by ring. lra.
    + destruct (Qlt_le_dec 0 t) as [Ht | Ht]; [exact Ht |].
      assert (0 <= (- t) * (- ic))%Q by (apply Qmult_le_0_compat; lra).
      assert ((- t) * (- ic) == t * ic)%Q by ring. lra.
Qed.

(** X15. The degraded result is what an idle run reports: a run that
    completes with the portfolio worth the initial cash, no Sharpe ratio,
    no drawdown and no trade returns a result whose every field equals
    that of the degraded result. *)
Theorem idle_run_reports_degraded_result df strategy_type p ic com s o :
  completes_with cerebro_run df strategy_type p ic com s o ->
  ~ (ic == 0)%Q ->
  idle_run o ic ->
  exists r s',
    run_backtest cerebro_run (Some df) strategy_type p ic com s = (Ok r, s')
    /\ result_eq r (degraded_result ic).
Proof.
  intros Hrun Hic (Hvalue & Hsharpe & Hdd & Htotal & Hpnl & Htrades & Hdaily).
  destruct (completed_run_result _ _ _ _ _ _ _ _ Hrun Hic) as (s' & Hr).
  eexists _, s'. split; [exact Hr |]. unfold result_eq. cbn.
  rewrite Hsharpe, Htrades, Hdaily.
  split; [exact Hvalue |]. split; [rewrite Hvalue; by field |].
  split; [reflexivity |]. split; [exact Hdd |].
  split; [reflexivity |]. split; [reflexivity |]. split.
  - unfold compute_win_rate.
    destruct (0 <? _) eqn:E; [apply Z.ltb_lt in E; lia | reflexivity].
  - unfold extract_avg_trade_return. rewrite Hpnl. cbn. by rewrite lookup_empty.
Qed.

(** X16. No result carries a NaN or an infinite Sharpe ratio: the [sharpe]
    of every result that is returned, degraded or not, is [None] or a
    finite number. *)
Theorem sharpe_none_or_finite (df : option DataFrame) strategy_type p ic com s r s' :
  run_backtest cerebro_run df strategy_type p ic com s = (Ok r, s') ->
  sharpe r = None \/ exists q, sharpe r = Some (Finite q).
Proof.
  intros Hcall.
  destruct (run_backtest_ok_inv _ _ _ _ _ _ _ _ _ Hcall)
    as (d & cls & items & -> & Hv & Hcls & Hp).
  rewrite (run_backtest_accepted _ _ _ _ _ _ _ _ _ Hv Hcls Hp) in Hcall.
  destruct (cerebro_run _ (world s)) as [[o | e] w].
  - apply build_result_inv in Hcall as (_ & _ & _ & -> & _).
    rewrite extract_sharpe_cases.
    destruct (Bt.sharpe_analysis (Bt.results_0 o)) as [a | e]; [| by left].
    destruct (a !! "sharperatio") as [[[q | | |] |] |]; eauto.
  - injection Hcall as <- _. by left.
Qed.

End Returned.

(** ** Further properties: the position size *)

Module SizerFacts.
Import Floats Sizer.

Lemma zero_spec : Prim2SF 0%float = S754_zero false.
Proof. reflexivity. Qed.

(** Two floats that compare equal have a difference whose magnitude is
    zero, or, for two infinities, is not a number. *)
Lemma SFeqb_sub a b :
  SFeqb a b = true ->
  SFabs (SF64sub a b) = S754_zero false \/ SFabs (SF64sub a b) = S754_nan.
Proof.
  unfold SFeqb, SF64sub, SFsub.
  destruct a as [sa | sa | | sa ma ea], b as [sb | sb | | sb mb eb];
    cbn [SFcompare]; try discriminate;
    try (destruct sa; discriminate); try (destruct sb; discriminate).
  - intros _. left. by destruct sa, sb.
  - destruct sa, sb; try discriminate; intros _; by right.
  - intros H. left.
    assert (Heq : sa = sb /\ ea = eb /\ ma = mb).
    { destruct sa, sb; try discriminate;
        destruct (Z.compare ea eb) eqn:He; try discriminate;
        apply Z.compare_eq in He;
        destruct (Pos.compare_cont Eq ma mb) eqn:Hm; try discriminate;
        apply Pos.compare_eq in Hm; by repeat split. }
    destruct Heq as (-> & -> & ->).
    rewrite Z.min_id. unfold shl_align. rewrite Z.sub_diag. cbn [fst].
    reflexivity.
Qed.

Lemma SF64div_nan x : SF64div x S754_nan = S754_nan.
Proof. by destruct x. Qed.

(** X17. No position is sized when the stop equals the price, where the
    risk per share is zero (or, for an infinite price, not a number, which
    [int] refuses), nor when the price is zero, where the division by the
    price raises: in both cases the method returns 0. *)
Theorem no_position_without_risk_or_price self price stop_price :
  PrimFloat.eqb price stop_price = true \/ PrimFloat.eqb price 0%float = true ->
  calculate_position_size self price stop_price = 0.
Proof.
  intros H. unfold calculate_position_size.
  destruct (PrimFloat.eqb (abs (price - stop_price)) 0) eqn:Erisk; [reflexivity |].
  unfold float_truediv at 1. rewrite Erisk.
  destruct H as [H | H].
  - rewrite eqb_spec in H. apply SFeqb_sub in H.
    rewrite eqb_spec, abs_spec, sub_spec, zero_spec in Erisk.
    destruct H as [H | H]; rewrite H in Erisk; [discriminate |].
    unfold py_int at 1. rewrite div_spec, abs_spec, sub_spec, H.
    by rewrite SF64div_nan.
  - destruct (py_int _); [| reflexivity].
    unfold float_truediv. by rewrite H.
Qed.

End SizerFacts.

(** ** The further properties on sample inputs *)

Module MoreRuns.
Import Sample Sample2.

(** A sample run is on an accepted input and completes. *)
Ltac sample_completes cls :=
  exists cls, ∅, tt; repeat split; evaluate.

(** X3 for Momentum on 30 rows with a requested lookback of 200. *)
Lemma adjusted_periods_fit_the_data_witness :
  exists adjusted,
    adjusts_to "momentum" params 30 (caller {[ "lookback" := 200 ]}) adjusted
    /\ forall key,
         In key (clamped_keys "momentum") ->
         exists v, adjusted !! key = Some v /\ v <= 30.
Proof.
  apply (adjusted_periods_fit_the_data "momentum" params 30
           (caller {[ "lookback" := 200 ]}) {[ "lookback" := 200 ]});
    [reflexivity | lia].
Defined.

(** X4 for DonchianBreakout on 40 rows with a requested atr_period of 0. *)
Lemma atr_period_clamped_witness :
  exists adjusted atr,
    adjusts_to "donchian_breakout" params 40 (caller {[ "atr_period" := 0 ]}) adjusted
    /\ adjusted !! "atr_period" = Some atr
    /\ atr = 0.
Proof.
  destruct (atr_period_clamped "donchian_breakout" params 40
              (caller {[ "atr_period" := 0 ]}) {[ "atr_period" := 0 ]})
    as (adjusted & atr & Hto & Hatr & Heq & _).
  - reflexivity.
  - simpl. tauto.
  - exists adjusted, atr. split; [exact Hto |]. split; [exact Hatr |].
    rewrite Heq. reflexivity.
Defined.

(** X5 for SmaCross on 100 rows with slow 30, fast 10 and atr_period 14. *)
Lemma fitting_parameters_unchanged_witness :
  adjusts_to "sma_cross" params 100
    (caller {[ "slow" := 30; "fast" := 10; "atr_period" := 14 ]})
    {[ "slow" := 30; "fast" := 10; "atr_period" := 14 ]}.
Proof.
  destruct (fitting_parameters_unchanged params 100
              (caller {[ "slow" := 30; "fast" := 10; "atr_period" := 14 ]})
              {[ "slow" := 30; "fast" := 10; "atr_period" := 14 ]} 14)
    as [Hsma _]; [reflexivity | reflexivity | evaluate |].
  apply (Hsma 30 10); clear Hsma; first [evaluate | split; evaluate].
Defined.

(** X6 for SmaCross on 30 rows with a requested slow of 50. *)
Lemma clamping_idempotent_witness :
  exists adjusted,
    adjusts_to "sma_cross" params 30 (caller {[ "slow" := 50 ]}) adjusted
    /\ adjusts_to "sma_cross" params 30 (caller adjusted) adjusted.
Proof.
  destruct (clamping_idempotent "sma_cross" params 30
              (caller {[ "slow" := 50 ]}) {[ "slow" := 50 ]})
    as (adjusted & Hto & Hagain); [reflexivity |].
  exists adjusted. split; [exact Hto |]. apply Hagain. apply lookup_singleton_eq.
Defined.

(** X7 for Momentum: a percentile threshold of 70 reaches the strategy. *)
Lemma other_parameters_pass_through_witness :
  exists adjusted,
    adjusts_to "momentum" params 60
      (caller {[ "lookback" := 200; "percentile_threshold" := 70 ]}) adjusted
    /\ adjusted !! "percentile_threshold" = Some 70.
Proof.
  destruct (other_parameters_pass_through "momentum" params 60
              (caller {[ "lookback" := 200; "percentile_threshold" := 70 ]})
              {[ "lookback" := 200; "percentile_threshold" := 70 ]})
    as (adjusted & Hto & Hother & _); [reflexivity |].
  exists adjusted. split; [exact Hto |].
  rewrite Hother; [reflexivity |]. simpl. intuition discriminate.
Defined.

(** X8 for SmaCross on 30 and on 90 rows. *)
Lemma clamping_monotone_in_rows_witness :
  exists adjusted adjusted',
    adjusts_to "sma_cross" params 30 (caller ∅) adjusted
    /\ adjusts_to "sma_cross" params 90 (caller ∅) adjusted'
    /\ forall key,
         In key (clamped_keys "sma_cross") ->
         exists v v',
           adjusted !! key = Some v /\ adjusted' !! key = Some v' /\ v <= v'.
Proof.
  apply (clamping_monotone_in_rows "sma_cross" params 30 90 (caller ∅) ∅);
    [reflexivity | lia | lia].
Defined.

(** X9 for two engines that complete alike. *)
Lemma engine_consulted_on_configuration_witness :
  run_backtest (completes rising_outcome) (Some (series 5)) "sma_cross" params
    100%Q com (caller ∅)
  = run_backtest (completes_too rising_outcome) (Some (series 5)) "sma_cross" params
      100%Q com (caller ∅)
  /\ world (snd (run_backtest (completes rising_outcome) (Some (series 5))
                   "sma_cross" params 100%Q com (caller ∅)))
     = snd (completes rising_outcome
              (configured (series 5) "sma_cross" SMAStrategy ∅ 100%Q com)
              (world (caller ∅))).
Proof.
  apply (engine_consulted_on_configuration (completes rising_outcome)
           (completes_too rising_outcome) (series 5) "sma_cross" SMAStrategy
           params ∅ 100%Q com (caller ∅)).
  - repeat split; evaluate.
  - reflexivity.
  - reflexivity.
  - reflexivity.
Defined.

(** X10 for a run whose three analyses raise. *)
Lemma failing_analyzers_degrade_locally_witness :
  exists r s',
    run_backtest (completes silent_outcome) (Some (series 5)) "sma_cross" params
      1000%Q com (caller ∅) = (Ok r, s')
    /\ final_cash r = Bt.getvalue (Bt.broker_after silent_outcome)
    /\ total_return r
       = ((Bt.getvalue (Bt.broker_after silent_outcome) - 1000) / 1000)%Q
    /\ trades r = default [] (Bt.trades_list (Bt.results_0 silent_outcome))
    /\ daily_positions r
       = default [] (Bt.daily_positions_attr (Bt.results_0 silent_outcome))
    /\ sharpe r = None /\ max_drawdown r = 0%Q
    /\ win_rate r = 0%Q /\ avg_trade_return r = 0%Q.
Proof.
  apply (failing_analyzers_degrade_locally (completes silent_outcome) (series 5)
           "sma_cross" params 1000%Q com (caller ∅) silent_outcome
           (Exception "KeyError" "sharpe") (Exception "KeyError" "drawdown")
           (Exception "KeyError" "trades")).
  - sample_completes SMAStrategy.
  - evaluate.
  - reflexivity.
  - reflexivity.
  - reflexivity.
Defined.

(** X11 for a run with three trades won out of four. *)
Lemma win_rate_of_trade_counts_witness :
  exists r s',
    run_backtest (completes traded_outcome) (Some (series 5)) "sma_cross" params
      1000%Q com (caller ∅) = (Ok r, s')
    /\ (win_rate r == 3 # 4)%Q
    /\ (0 <= win_rate r <= 1)%Q.
Proof.
  destruct (win_rate_of_trade_counts (completes traded_outcome) (series 5)
              "sma_cross" params 1000%Q com (caller ∅) traded_outcome)
    as (r & s' & Hr & _ & Hratio & Hrange).
  - sample_completes SMAStrategy.
  - evaluate.
  - exists r, s'. split; [exact Hr |]. split.
    + rewrite Hratio by evaluate. vm_compute. reflexivity.
    + apply Hrange. split; evaluate.
Defined.

(** X12 for the same run: an average gross profit of 25. *)
Lemma avg_trade_return_of_gross_average_witness :
  exists r s',
    run_backtest (completes traded_outcome) (Some (series 5)) "sma_cross" params
      1000%Q com (caller ∅) = (Ok r, s')
    /\ (avg_trade_return r == 25)%Q.
Proof.
  destruct (avg_trade_return_of_gross_average (completes traded_outcome) (series 5)
              "sma_cross" params 1000%Q com (caller ∅) traded_outcome)
    as (r & s' & Hr & Havg).
  - sample_completes SMAStrategy.
  - evaluate.
  - exists r, s'. split; [exact Hr |]. rewrite Havg. vm_compute. reflexivity.
Defined.

(** X13 for the same run: a drawdown of 25 percent is reported as -0.25. *)
Lemma max_drawdown_of_percentage_witness :
  exists r s',
    run_backtest (completes traded_outcome) (Some (series 5)) "sma_cross" params
      1000%Q com (caller ∅) = (Ok r, s')
    /\ (max_drawdown r == - (1 # 4))%Q.
Proof.
  destruct (max_drawdown_of_percentage (completes traded_outcome) (series 5)
              "sma_cross" params 1000%Q com (caller ∅) traded_outcome
              {[ "max" := {[ "drawdown" := 25%Q ]} ]})
    as (r & s' & Hr & Hdd).
  - sample_completes SMAStrategy.
  - evaluate.
  - reflexivity.
  - exists r, s'. split; [exact Hr |]. rewrite Hdd. vm_compute. reflexivity.
Defined.

(** X14 for an initial cash of -1000 and a final value of 100000. *)
Lemma total_return_sign_witness :
  exists r s',
    run_backtest (completes flat_outcome) (Some (series 5)) "sma_cross" params
      (-1000)%Q com (caller ∅) = (Ok r, s')
    /\ ((0 < total_return r)%Q <-> (final_cash r < -1000)%Q).
Proof.
  destruct (total_return_sign (completes flat_outcome) (series 5) "sma_cross"
              SMAStrategy params ∅ (-1000)%Q com (caller ∅))
    as (r & s' & Hr & _ & _ & Hneg).
  - repeat split; evaluate.
  - reflexivity.
  - reflexivity.
  - evaluate.
  - exists r, s'. split; [exact Hr |]. apply Hneg. reflexivity.
Defined.

(** X15 for a flat run from 100000. *)
Lemma idle_run_reports_degraded_result_witness :
  exists r s',
    run_backtest (completes flat_outcome) (Some (series 5)) "sma_cross" params
      100000%Q com (caller ∅) = (Ok r, s')
    /\ result_eq r (degraded_result 100000).
Proof.
  apply (idle_run_reports_degraded_result (completes flat_outcome) (series 5)
           "sma_cross" params 100000%Q com (caller ∅) flat_outcome).
  - sample_completes SMAStrategy.
  - evaluate.
  - repeat split; evaluate.
Defined.

(** X16 for a run whose analyzer reports a NaN Sharpe ratio. *)
Lemma sharpe_none_or_finite_witness :
  exists r s',
    run_backtest (completes traded_outcome) (Some (series 5)) "sma_cross" params
      1000%Q com (caller ∅) = (Ok r, s')
    /\ (sharpe r = None \/ exists q, sharpe r = Some (Finite q)).
Proof.
  assert (Hcall : exists r s',
             run_backtest (completes traded_outcome) (Some (series 5)) "sma_cross"
               params 1000%Q com (caller ∅) = (Ok r, s'))
    by (eexists _, _; vm_compute; reflexivity).
  destruct Hcall as (r & s' & Hcall).
  exists r, s'. split; [exact Hcall |].
  apply (sharpe_none_or_finite _ _ _ _ _ _ _ _ _ Hcall).
Defined.

End MoreRuns.

Module SizerRuns.
Import Floats Sizer.

(** X17 for the broker of the test, a price of 100 and a stop of 100. *)
Lemma no_position_without_risk_or_price_witness :
  calculate_position_size init 100%float 100%float = 0.
Proof.
  apply (SizerFacts.no_position_without_risk_or_price init 100%float 100%float).
  left. reflexivity.
Defined.

End SizerRuns.
